(** * The finance route: request assembly and tool-response normalisation

    A shallow embedding of [app/api/finance/route.ts] (the [POST] handler of
    the financial data analyst) and the properties its design document
    states about it.

    Conventions of the embedding.

    - A JavaScript value is a [value].  The values that reach the handler
      come out of [JSON.parse] (the request body and the reply of the
      generation service), so they are trees: no two paths lead to the same
      object.  An object is the list of its own properties in the order
      [Object.keys] enumerates them (array indices first, in ascending
      order, then the other keys in the order of their creation);
      [json_value] is the invariant every parsed document satisfies.
    - A string is the sequence of the bytes of its UTF-8 encoding, so that
      [decodeURIComponent(escape(s))], which decodes the bytes of [s] as
      UTF-8, is the identity on the byte sequences that are well-formed
      UTF-8 and throws on the others.  The length and the characters of a
      string, which the handler reads only when it is handed a string where
      an object is expected, are those of its bytes.
    - Numbers are only carried around, printed and tested for truthiness;
      they are integers here.
    - A property read looks at the own properties and at [Object.prototype].
      The methods that the prototypes of arrays, strings, numbers and
      booleans add are not modelled; no name the handler reads is one of
      theirs, except for the names a pie chart takes from its [config] and
      [chartConfig], which matter on rows that are not objects only.
    - An exception is a value of [exn]; code that may throw lives in the
      [result] monad.
    - The handler mutates the tool invocation it received.  The functions
      that do so return the state of the mutated object next to their
      result, and the response is built from that later state.
    - The call of the generation service is the one effect of the handler:
      [POST] either responds, or sends a request and goes on with the
      answer.  The [catch] of the handler builds a response too, and the
      constructor of a response throws on a status it cannot carry; the
      promise of the handler is then rejected and there is no response.
    - A status code that an error carries is a natural number. *)

From Stdlib Require Import List String Ascii ZArith NArith QArith Bool Lia.
From Stdlib Require Import DecimalString DecimalNat.
Import ListNotations.
Close Scope Q_scope.
Open Scope string_scope.

(** ** Values *)

Unset Elimination Schemes.
Inductive value : Type :=
| VUndef
| VNull
| VBool (b : bool)
| VNum (n : Z)
| VStr (s : string)
| VArr (xs : list value)
| VObj (fs : list (string * value))
| VBuiltin (name : string).
(** [VBuiltin name] is what a property read finds under [name] on
    [Object.prototype]: a built-in function (or, for [__proto__], the
    prototype itself).  It is never part of a parsed document. *)
Set Elimination Schemes.

(** ** Exceptions and the error monad *)

Inductive exn : Type :=
| TypeError (what : string)
| JsError (name message : string)
| UpstreamError (statusCode : N) (message : string)
| NotAnError (thrown : value).
(** [TypeError] is raised by the language itself (its text is the engine's;
    the one given here only tells the place), [JsError "Error" m] is
    [new Error(m)] and the other names are the errors of the library
    functions, which have no [statusCode]; [UpstreamError] is an [Error]
    of the service client that carries a [statusCode], and [NotAnError] is
    a thrown value that is not an instance of [Error]. *)

Inductive result (A : Type) : Type :=
| Ok (a : A)
| Throw (e : exn).
Arguments Ok {A} a.
Arguments Throw {A} e.

Definition bind {A B} (m : result A) (k : A -> result B) : result B :=
  match m with
  | Ok a => k a
  | Throw e => Throw e
  end.

Notation "x <- m ;; k" := (bind m (fun x => k))
  (at level 61, m at next level, right associativity).
Notation "' p <- m ;; k" := (bind m (fun x => let p := x in k))
  (at level 61, p pattern, m at next level, right associativity).

(** ** Truthiness, [||] and strict equality with a string literal *)

Definition truthy (v : value) : bool :=
  match v with
  | VUndef | VNull => false
  | VBool b => b
  | VNum n => negb (Z.eqb n 0)
  | VStr s => negb (String.eqb s EmptyString)
  | VArr _ | VObj _ | VBuiltin _ => true
  end.

Definition js_or (a b : value) : value := if truthy a then a else b.

Definition is_string (v : value) (s : string) : bool :=
  match v with
  | VStr t => String.eqb t s
  | _ => false
  end.

Definition isArray (v : value) : bool :=
  match v with
  | VArr _ => true
  | _ => false
  end.

Definition nullish (v : value) : bool :=
  match v with
  | VUndef | VNull => true
  | _ => false
  end.

(** ** Property keys

    The own keys of an object are enumerated with the array indices first,
    in ascending numeric order, and then the other keys in the order of
    their creation.  An array index is the canonical decimal form of an
    integer below [2^32 - 1]. *)

Definition digit_of (c : ascii) : option N :=
  let n := N_of_ascii c in
  if (48 <=? n)%N && (n <=? 57)%N then Some (n - 48)%N else None.

Fixpoint digits_value (s : string) (acc : N) : option N :=
  match s with
  | EmptyString => Some acc
  | String c r =>
      match digit_of c with
      | Some d => digits_value r (10 * acc + d)%N
      | None => None
      end
  end.

Definition array_index (k : string) : option N :=
  match k with
  | EmptyString => None
  | String "0"%char EmptyString => Some 0%N
  | String "0"%char _ => None
  | _ =>
      match digits_value k 0 with
      | Some n => if (n <=? 4294967294)%N then Some n else None
      | None => None
      end
  end.

Fixpoint lookup (k : string) (fs : list (string * value)) : option value :=
  match fs with
  | [] => None
  | (k', v) :: r => if String.eqb k' k then Some v else lookup k r
  end.

Fixpoint replace (k : string) (v : value) (fs : list (string * value))
  : list (string * value) :=
  match fs with
  | [] => []
  | (k', v') :: r =>
      if String.eqb k' k then (k', v) :: r else (k', v') :: replace k v r
  end.

(** A new array-index key goes before the first key that is not a smaller
    array index. *)
Fixpoint insert_index (n : N) (k : string) (v : value)
  (fs : list (string * value)) : list (string * value) :=
  match fs with
  | [] => [(k, v)]
  | (k', v') :: r =>
      match array_index k' with
      | Some m =>
          if (m <? n)%N then (k', v') :: insert_index n k v r
          else (k, v) :: fs
      | None => (k, v) :: fs
      end
  end.

(** [obj_set k v fs]: define or overwrite the own property [k]. *)
Definition obj_set (k : string) (v : value) (fs : list (string * value))
  : list (string * value) :=
  match lookup k fs with
  | Some _ => replace k v fs
  | None =>
      match array_index k with
      | Some n => insert_index n k v fs
      | None => fs ++ [(k, v)]
      end
  end.

Definition keys (fs : list (string * value)) : list string := map fst fs.

(** The order invariant of the own keys of an object. *)
Definition key_before (a b : string) : bool :=
  match array_index a, array_index b with
  | Some m, Some n => (m <? n)%N
  | Some _, None => true
  | None, Some _ => false
  | None, None => true
  end.

Fixpoint keys_ordered (ks : list string) : bool :=
  match ks with
  | [] => true
  | a :: r =>
      match r with
      | [] => true
      | b :: _ => key_before a b && keys_ordered r
      end
  end.

Fixpoint mem (k : string) (ks : list string) : bool :=
  match ks with
  | [] => false
  | a :: r => String.eqb a k || mem k r
  end.

Fixpoint keys_distinct (ks : list string) : bool :=
  match ks with
  | [] => true
  | a :: r => negb (mem a r) && keys_distinct r
  end.

Definition wf_keys (fs : list (string * value)) : bool :=
  keys_ordered (keys fs) && keys_distinct (keys fs).

(** The documents [JSON.parse] produces. *)
Fixpoint json_value (v : value) : bool :=
  match v with
  | VUndef | VBuiltin _ => false
  | VNull | VBool _ | VNum _ | VStr _ => true
  | VArr xs => forallb json_value xs
  | VObj fs =>
      wf_keys fs && forallb (fun p => json_value (snd p)) fs
  end.

(** ** Printing *)

Definition decimal_of_nat (n : nat) : string :=
  NilZero.string_of_uint (Nat.to_uint n).

Definition decimal_of_Z (n : Z) : string :=
  NilZero.string_of_int (Z.to_int n).

(** [ToString]: what a template literal, a property key and [atob] make of a
    value.  An object with an own [toString] property (which, in a parsed
    document, is not callable) has no primitive value. *)
Fixpoint to_string (v : value) : result string :=
  match v with
  | VUndef => Ok "undefined"
  | VNull => Ok "null"
  | VBool true => Ok "true"
  | VBool false => Ok "false"
  | VNum n => Ok (decimal_of_Z n)
  | VStr s => Ok s
  | VArr xs =>
      (fix join (l : list value) : result string :=
         match l with
         | [] => Ok EmptyString
         | x :: r =>
             e <- (if nullish x then Ok EmptyString else to_string x) ;;
             match r with
             | [] => Ok e
             | _ => t <- join r ;; Ok (e ++ "," ++ t)
             end
         end) xs
  | VObj fs =>
      match lookup "toString" fs with
      | Some _ => Throw (TypeError "Cannot convert object to primitive value")
      | None => Ok "[object Object]"
      end
  | VBuiltin name => Ok ("function " ++ name ++ "() { [native code] }")
  end.

(** ** Property reads and writes *)

Definition object_prototype_keys : list string :=
  [ "constructor"; "__defineGetter__"; "__defineSetter__"; "hasOwnProperty";
    "__lookupGetter__"; "__lookupSetter__"; "isPrototypeOf";
    "propertyIsEnumerable"; "toString"; "valueOf"; "__proto__";
    "toLocaleString" ].

Definition inherited (k : string) : value :=
  if mem k object_prototype_keys then VBuiltin k else VUndef.

Fixpoint chars (s : string) : list value :=
  match s with
  | EmptyString => []
  | String c r => VStr (String c EmptyString) :: chars r
  end.

(** The indexed elements of an array or of a string. *)
Definition elements (v : value) : list value :=
  match v with
  | VArr xs => xs
  | VStr s => chars s
  | _ => []
  end.

Definition has_length (v : value) : bool :=
  match v with
  | VArr _ | VStr _ => true
  | _ => false
  end.

(** [prop v k] is [v[k]] on a receiver that is neither [null] nor
    [undefined]: the own property, else the one inherited from
    [Object.prototype].  The methods the prototypes of arrays, strings,
    numbers and booleans add are not part of the model, and the elements
    of a string are exact for ASCII text. *)
Definition prop (v : value) (k : string) : value :=
  match v with
  | VObj fs =>
      match lookup k fs with
      | Some x => x
      | None => inherited k
      end
  | _ =>
      match array_index k with
      | Some n => nth (N.to_nat n) (elements v) VUndef
      | None =>
          if has_length v && String.eqb k "length"
          then VNum (Z.of_nat (List.length (elements v)))
          else inherited k
      end
  end.

Definition get (v : value) (k : string) : result value :=
  if nullish v
  then Throw (TypeError ("Cannot read properties of null or undefined: " ++ k))
  else Ok (prop v k).

(** [assign o k v] is the state of [o] after [o.k = v], for a key [k] that
    is not an array index.  The module is strict code, so a write to a
    primitive throws.  A named property written on an array is neither read
    again nor serialised, so the array is left as it is. *)
Definition assign (o : value) (k : string) (v : value) : result value :=
  match o with
  | VObj fs => Ok (VObj (obj_set k v fs))
  | VArr _ | VBuiltin _ => Ok o
  | VUndef | VNull =>
      Throw (TypeError ("Cannot set properties of null or undefined: " ++ k))
  | VBool _ | VNum _ | VStr _ =>
      Throw (TypeError ("Cannot create property on a primitive: " ++ k))
  end.

Fixpoint number_from (i : nat) (xs : list value) : list (string * value) :=
  match xs with
  | [] => []
  | x :: r => (decimal_of_nat i, x) :: number_from (S i) r
  end.

(** The own enumerable properties, as [Object.entries] lists them and as a
    spread copies them. *)
Definition own_entries (v : value) : list (string * value) :=
  match v with
  | VObj fs => fs
  | _ => number_from 0 (elements v)
  end.

Definition Object_entries (v : value) : result (list (string * value)) :=
  if nullish v
  then Throw (TypeError "Cannot convert undefined or null to object")
  else Ok (own_entries v).

Definition Object_keys (v : value) : result (list string) :=
  es <- Object_entries v ;; Ok (keys es).

(** [spread_into o v] is the object literal [{...o', ...v}] under
    construction: the properties of [v] are defined one by one on the
    properties [o] defined so far. *)
Definition spread_into (o : list (string * value)) (v : value)
  : list (string * value) :=
  fold_left (fun acc p => obj_set (fst p) (snd p) acc) (own_entries v) o.

(** ** Array methods *)

Fixpoint mapM {A B} (f : A -> result B) (l : list A) : result (list B) :=
  match l with
  | [] => Ok []
  | x :: r => y <- f x ;; ys <- mapM f r ;; Ok (y :: ys)
  end.

Fixpoint reduce_from {A B} (f : B -> A -> nat -> B) (l : list A)
  (index : nat) (acc : B) : B :=
  match l with
  | [] => acc
  | x :: r => reduce_from f r (S index) (f acc x index)
  end.

(** [l.reduce(f, init)], whose callback also receives the index. *)
Definition reduce {A B} (f : B -> A -> nat -> B) (l : list A) (init : B) : B :=
  reduce_from f l 0 init.

(** ** The Chart Data Normalizer: [processToolResponse] *)

Definition color_var (slot : nat) : string :=
  "hsl(var(--chart-" ++ decimal_of_nat slot ++ "))".

(** The callback of [chartData.data.map] in the pie branch. *)
Definition pie_row (chartData item : value) : result value :=
  ks <- Object_keys (prop chartData "chartConfig") ;;
  let valueKey := match ks with k :: _ => VStr k | [] => VUndef end in
  x <- get (prop chartData "config") "xAxisKey" ;;
  let segmentKey := js_or x (VStr "segment") in
  sk <- to_string segmentKey ;;
  a <- get item sk ;;
  let segment :=
    js_or (js_or (js_or a (prop item "segment")) (prop item "category"))
      (prop item "name") in
  vk <- to_string valueKey ;;
  b <- get item vk ;;
  Ok (VObj [("segment", segment); ("value", js_or b (prop item "value"))]).

(** The callback of the [reduce] that builds [processedChartConfig]. *)
Definition colorize (acc : list (string * value)) (entry : string * value)
  (index : nat) : list (string * value) :=
  let (key, config) := entry in
  obj_set key
    (VObj (obj_set "color" (VStr (color_var (index + 1)))
             (spread_into [] config)))
    (spread_into [] (VObj acc)).

(** [processToolResponse] (lines 367 to 416).  The result is the state of
    [toolUseContent] after the call and the value the call returns.
    [chartData] is the very object [toolUseContent.input], and
    [chartData.config] is part of it, so what the pie branch assigns to
    [chartData.data] and to [chartData.config.xAxisKey] is assigned inside
    [toolUseContent]: the two last assignments of the branch put the written
    objects back in the objects that hold them. *)
Definition processToolResponse (toolUseContent : value)
  : result (value * value) :=
  if negb (truthy toolUseContent) then Ok (toolUseContent, VNull) else
  chartData <- get toolUseContent "input" ;;
  chartType <- get chartData "chartType" ;;
  if negb (truthy chartType)
     || negb (truthy (prop chartData "data"))
     || negb (isArray (prop chartData "data"))
  then Throw (JsError "Error" "Invalid chart data structure") else
  st <- (if is_string chartType "pie" then
           data <- mapM (pie_row chartData) (elements (prop chartData "data")) ;;
           chartData <- assign chartData "data" (VArr data) ;;
           config <- assign (prop chartData "config") "xAxisKey"
                       (VStr "segment") ;;
           chartData <- assign chartData "config" config ;;
           toolUseContent <- assign toolUseContent "input" chartData ;;
           Ok (toolUseContent, chartData)
         else Ok (toolUseContent, chartData)) ;;
  let (toolUseContent, chartData) := st : value * value in
  es <- Object_entries (prop chartData "chartConfig") ;;
  let processedChartConfig := reduce colorize es [] in
  Ok (toolUseContent,
      VObj (obj_set "chartConfig" (VObj processedChartConfig)
              (spread_into [] chartData))).

(** ** The Tool Schema Registry: [tools] (lines 27 to 125) *)

Unset Elimination Schemes.
Inductive schema : Type :=
| TString (enum : option (list string))
| TNumber
| TBoolean
| TArray (items : schema)
| TObject (properties : list (string * schema)) (required : list string)
    (additionalProperties : option schema)
| Described (description : string) (s : schema)
| Formatted (format : string) (s : schema).
Set Elimination Schemes.
(** [additionalProperties] is [None] where the source has [true] or
    nothing: any further property is allowed. *)

Record ToolSchema : Type := {
  name : string;
  description : string;
  input_schema : schema
}.

Definition chart_types : list string :=
  ["bar"; "multiBar"; "line"; "pie"; "area"; "stackedArea"].

Definition generate_graph_data : ToolSchema := {|
  name := "generate_graph_data";
  description :=
    "Generate structured JSON data for creating financial charts and graphs.";
  input_schema :=
    TObject
      [ ("chartType",
         Described "The type of chart to generate"
           (TString (Some chart_types)));
        ("config",
         TObject
           [ ("title", TString None);
             ("description", TString None);
             ("trend",
              TObject
                [ ("percentage", TNumber);
                  ("direction", TString (Some ["up"; "down"])) ]
                ["percentage"; "direction"] None);
             ("footer", TString None);
             ("totalLabel", TString None);
             ("xAxisKey", TString None) ]
           ["title"; "description"] None);
        ("data", TArray (TObject [] [] None));
        ("chartConfig",
         TObject [] []
           (Some (TObject
                    [ ("label", TString None); ("stacked", TBoolean) ]
                    ["label"] None))) ]
      ["chartType"; "config"; "data"; "chartConfig"] None
|}.

Definition get_stock_price : ToolSchema := {|
  name := "get_stock_price";
  description :=
    "Use this tool to retrieve the historical stock price data for a specific company. This tool will get the open high low close value of the ticker. The tool has been set to take the price until today and 1 month behind as default. If the user do not specify the date, always get the price for the latest date.";
  input_schema :=
    TObject
      [ ("ticker", Described "The stock ticker symbol" (TString None));
        ("start",
         Described "The start date for the price data (format: YYYY-MM-DD)"
           (Formatted "date" (TString None)));
        ("end",
         Described "The end date for the price data (format: YYYY-MM-DD)"
           (Formatted "date" (TString None))) ]
      ["ticker"; "start"; "end"] None
|}.

Definition tools : list ToolSchema := [generate_graph_data; get_stock_price].

Definition has_key (fs : list (string * value)) (k : string) : bool :=
  match lookup k fs with
  | Some _ => true
  | None => false
  end.

(** What a schema demands of a document. *)
Fixpoint conforms (s : schema) (v : value) {struct s} : bool :=
  match s with
  | TString enum =>
      match v with
      | VStr t => match enum with Some e => mem t e | None => true end
      | _ => false
      end
  | TNumber => match v with VNum _ => true | _ => false end
  | TBoolean => match v with VBool _ => true | _ => false end
  | TArray items =>
      match v with
      | VArr xs => forallb (conforms items) xs
      | _ => false
      end
  | TObject properties required additional =>
      match v with
      | VObj fs =>
          forallb (has_key fs) required
          && (fix declared (ps : list (string * schema)) : bool :=
                match ps with
                | [] => true
                | (k, sk) :: r =>
                    match lookup k fs with
                    | Some x => conforms sk x
                    | None => true
                    end && declared r
                end) properties
          && match additional with
             | Some sa =>
                 forallb (fun p => mem (fst p) (map fst properties)
                                   || conforms sa (snd p)) fs
             | None => true
             end
      | _ => false
      end
  | Described _ s' | Formatted _ s' => conforms s' v
  end.

(** ** Decoding an attached text file

    [atob] is forgiving-base64 decoding: ASCII whitespace is dropped, one or
    two closing [=] are dropped when the length is a multiple of four, a
    length of [4n + 1] and any character outside the alphabet are refused,
    and the bits that do not fill a byte are discarded. *)

Definition ascii_whitespace (c : ascii) : bool :=
  let n := N_of_ascii c in
  (n =? 9)%N || (n =? 10)%N || (n =? 12)%N || (n =? 13)%N || (n =? 32)%N.

Fixpoint string_filter (f : ascii -> bool) (s : string) : string :=
  match s with
  | EmptyString => EmptyString
  | String c r =>
      if f c then String c (string_filter f r) else string_filter f r
  end.

Definition strip_padding (s : string) : string :=
  let n := String.length s in
  if Nat.eqb (n mod 4) 0 then
    if String.eqb (substring (n - 2) 2 s) "==" then substring 0 (n - 2) s
    else if String.eqb (substring (n - 1) 1 s) "=" then substring 0 (n - 1) s
    else s
  else s.

Definition sextet (c : ascii) : option N :=
  let n := N_of_ascii c in
  if (65 <=? n)%N && (n <=? 90)%N then Some (n - 65)%N
  else if (97 <=? n)%N && (n <=? 122)%N then Some (n - 71)%N
  else if (48 <=? n)%N && (n <=? 57)%N then Some (n + 4)%N
  else if (n =? 43)%N then Some 62%N
  else if (n =? 47)%N then Some 63%N
  else None.

Fixpoint sextets (s : string) : option (list N) :=
  match s with
  | EmptyString => Some []
  | String c r =>
      match sextet c, sextets r with
      | Some x, Some xs => Some (x :: xs)
      | _, _ => None
      end
  end.

Definition byte (n : N) : ascii := ascii_of_N (n mod 256).

Fixpoint octets (xs : list N) : string :=
  match xs with
  | a :: b :: c :: d :: r =>
      String (byte (a * 4 + b / 16))
        (String (byte (b * 16 + c / 4))
           (String (byte (c * 64 + d)) (octets r)))
  | [a; b; c] =>
      String (byte (a * 4 + b / 16))
        (String (byte (b * 16 + c / 4)) EmptyString)
  | [a; b] => String (byte (a * 4 + b / 16)) EmptyString
  | _ => EmptyString
  end%N.

Definition atob (input : string) : result string :=
  let data := strip_padding (string_filter (fun c => negb (ascii_whitespace c)) input) in
  if Nat.eqb (String.length data mod 4) 1
  then Throw (JsError "InvalidCharacterError"
                "The string to be decoded is not correctly encoded.")
  else
    match sextets data with
    | Some xs => Ok (octets xs)
    | None => Throw (JsError "InvalidCharacterError" "Invalid character")
    end.

(** Well-formed UTF-8, byte sequence by byte sequence. *)
Definition between (lo hi : N) (c : ascii) : bool :=
  let n := N_of_ascii c in (lo <=? n)%N && (n <=? hi)%N.

Fixpoint well_formed_utf8 (s : string) : bool :=
  match s with
  | EmptyString => true
  | String c r =>
      if between 0 127 c then well_formed_utf8 r
      else if between 194 223 c then
        match r with
        | String c1 r1 => between 128 191 c1 && well_formed_utf8 r1
        | _ => false
        end
      else if between 224 239 c then
        match r with
        | String c1 (String c2 r2) =>
            (if between 224 224 c then between 160 191 c1
             else if between 237 237 c then between 128 159 c1
             else between 128 191 c1)
            && between 128 191 c2 && well_formed_utf8 r2
        | _ => false
        end
      else if between 240 244 c then
        match r with
        | String c1 (String c2 (String c3 r3)) =>
            (if between 240 240 c then between 144 191 c1
             else if between 244 244 c then between 128 143 c1
             else between 128 191 c1)
            && between 128 191 c2 && between 128 191 c3
            && well_formed_utf8 r3
        | _ => false
        end
      else false
  end.

(** [decodeURIComponent(escape(binary))]: the text whose UTF-8 encoding
    [binary] is. *)
Definition decode_utf8 (binary : string) : result string :=
  if well_formed_utf8 binary then Ok binary
  else Throw (JsError "URIError" "URI malformed").

(** ** Encoding: [btoa] and the helper [isValidBase64] (lines 13 to 20)

    [btoa] takes a binary string, three bytes at a time, to four digits of
    the alphabet, and pads the last group with [=].  It throws on a
    character beyond U+00FF; the helper hands it what [atob] returns, whose
    characters are bytes. *)

Definition base64_digit (n : N) : ascii :=
  if (n <? 26)%N then ascii_of_N (n + 65)
  else if (n <? 52)%N then ascii_of_N (n + 71)
  else if (n <? 62)%N then ascii_of_N (n - 4)
  else if (n =? 62)%N then ascii_of_N 43
  else ascii_of_N 47.

(** The digits of the groups of [binary], without the padding. *)
Fixpoint unpadded (binary : string) : string :=
  match binary with
  | EmptyString => EmptyString
  | String a EmptyString =>
      let a := N_of_ascii a in
      String (base64_digit (a / 4))
        (String (base64_digit (a mod 4 * 16)) EmptyString)
  | String a (String b EmptyString) =>
      let a := N_of_ascii a in
      let b := N_of_ascii b in
      String (base64_digit (a / 4))
        (String (base64_digit (a mod 4 * 16 + b / 16))
           (String (base64_digit (b mod 16 * 4)) EmptyString))
  | String a (String b (String c r)) =>
      let a := N_of_ascii a in
      let b := N_of_ascii b in
      let c := N_of_ascii c in
      String (base64_digit (a / 4))
        (String (base64_digit (a mod 4 * 16 + b / 16))
           (String (base64_digit (b mod 16 * 4 + c / 64))
              (String (base64_digit (c mod 64)) (unpadded r))))
  end%N.

Definition padding (binary : string) : string :=
  match String.length binary mod 3 with
  | 1 => "=="
  | 2 => "="
  | _ => EmptyString
  end.

Definition btoa (binary : string) : string :=
  unpadded binary ++ padding binary.

(** [isValidBase64]: [btoa(atob(str)) === str], and [false] when either
    throws. *)
Definition isValidBase64 (str : string) : bool :=
  match atob str with
  | Ok binary => String.eqb (btoa binary) str
  | Throw _ => false
  end.

(** ** Responses *)

Record Response : Type := {
  status : value;
  body : value;
  headers : list (string * string)
}.
(** [body] is the value handed to [JSON.stringify]: a property that holds
    [undefined] is one the caller does not receive. *)

Definition bad_request (message : string) : Response := {|
  status := VNum 400;
  body := VObj [("error", VStr message)];
  headers := []
|}.

(** [new Response(body, { status, headers })] with a body that is not
    [null] and a status that is a natural number, as the Fetch standard
    has it: the status is converted to an unsigned short, that is taken
    modulo 2^16; outside 200..599 the constructor throws a [RangeError]; on
    a null body status it throws a [TypeError], because there is a body.
    (The texts are the platform's.) *)
Definition null_body_statuses : list N := [101; 103; 204; 205; 304]%N.

Definition new_Response (body : value) (status : N)
  (headers : list (string * string)) : result Response :=
  let status := (status mod 65536)%N in
  if (status <? 200)%N || (599 <? status)%N
  then Throw (JsError "RangeError"
                "The status provided is outside the range [200, 599]")
  else if existsb (N.eqb status) null_body_statuses
  then Throw (TypeError "Response with null body status cannot have body")
  else Ok {| status := VNum (Z.of_N status);
             body := body;
             headers := headers |}.

(** [(error as any).statusCode || 500]: the status code the error carries,
    and 500 when it carries none or carries 0. *)
Definition statusCode_of (e : exn) : N :=
  match e with
  | UpstreamError code _ => if (code =? 0)%N then 500%N else code
  | _ => 500%N
  end.

Definition message_of (e : exn) : string :=
  match e with
  | TypeError m | JsError _ m | UpstreamError _ m => m
  | NotAnError _ => "Unknown error"
  end.

(** The outer [catch] (lines 436 to 468): the response it returns, or the
    exception of the constructor of that response, with which the handler
    ends. *)
Definition on_error (e : exn) : result Response :=
  match e with
  | NotAnError _ =>
      new_Response (VObj [("error", VStr "An unknown error occurred")]) 500
        [("Content-Type", "application/json")]
  | _ =>
      let statusCode := statusCode_of e in
      new_Response
        (VObj [("error", VStr "Bedrock API Error");
               ("details", VStr (message_of e));
               ("code", VNum (Z.of_N statusCode))])
        statusCode []
  end.

(** ** The Request Builder: [bedrockPayload] (lines 219 to 334) *)

Definition dq : string := String (ascii_of_nat 34) EmptyString.
Definition LF : string := String (ascii_of_nat 10) EmptyString.

Definition system_prompt : string :=
  "You are a financial data visualization expert. Your role is to analyze financial data and create clear, meaningful visualizations using generate_graph_data tool:

Here are the chart types available and their ideal use cases:

1. LINE CHARTS (" ++ dq ++
  "line" ++ dq ++
  ")
   - Time series data showing trends
   - Financial metrics over time
   - Market performance tracking

2. BAR CHARTS (" ++ dq ++
  "bar" ++ dq ++
  ")
   - Single metric comparisons
   - Period-over-period analysis
   - Category performance

3. MULTI-BAR CHARTS (" ++ dq ++
  "multiBar" ++ dq ++
  ")
   - Multiple metrics comparison
   - Side-by-side performance analysis
   - Cross-category insights

4. AREA CHARTS (" ++ dq ++
  "area" ++ dq ++
  ")
   - Volume or quantity over time
   - Cumulative trends
   - Market size evolution

5. STACKED AREA CHARTS (" ++ dq ++
  "stackedArea" ++ dq ++
  ")
   - Component breakdowns over time
   - Portfolio composition changes
   - Market share evolution

6. PIE CHARTS (" ++ dq ++
  "pie" ++ dq ++
  ")
   - Distribution analysis
   - Market share breakdown
   - Portfolio allocation

When generating visualizations:
1. Structure data correctly based on the chart type
2. Use descriptive titles and clear descriptions
3. Include trend information when relevant (percentage and direction)
4. Add contextual footer notes
5. Use proper data keys that reflect the actual metrics

Data Structure Examples:

For Time-Series (Line/Bar/Area):
{
  data: [
    { period: " ++ dq ++
  "Q1 2024" ++ dq ++
  ", revenue: 1250000 },
    { period: " ++ dq ++
  "Q2 2024" ++ dq ++
  ", revenue: 1450000 }
  ],
  config: {
    xAxisKey: " ++ dq ++
  "period" ++ dq ++
  ",
    title: " ++ dq ++
  "Quarterly Revenue" ++ dq ++
  ",
    description: " ++ dq ++
  "Revenue growth over time" ++ dq ++
  "
  },
  chartConfig: {
    revenue: { label: " ++ dq ++
  "Revenue ($)" ++ dq ++
  " }
  }
}

For Comparisons (MultiBar):
{
  data: [
    { category: " ++ dq ++
  "Product A" ++ dq ++
  ", sales: 450000, costs: 280000 },
    { category: " ++ dq ++
  "Product B" ++ dq ++
  ", sales: 650000, costs: 420000 }
  ],
  config: {
    xAxisKey: " ++ dq ++
  "category" ++ dq ++
  ",
    title: " ++ dq ++
  "Product Performance" ++ dq ++
  ",
    description: " ++ dq ++
  "Sales vs Costs by Product" ++ dq ++
  "
  },
  chartConfig: {
    sales: { label: " ++ dq ++
  "Sales ($)" ++ dq ++
  " },
    costs: { label: " ++ dq ++
  "Costs ($)" ++ dq ++
  " }
  }
}

For Distributions (Pie):
{
  data: [
    { segment: " ++ dq ++
  "Equities" ++ dq ++
  ", value: 5500000 },
    { segment: " ++ dq ++
  "Bonds" ++ dq ++
  ", value: 3200000 }
  ],
  config: {
    xAxisKey: " ++ dq ++
  "segment" ++ dq ++
  ",
    title: " ++ dq ++
  "Portfolio Allocation" ++ dq ++
  ",
    description: " ++ dq ++
  "Current investment distribution" ++ dq ++
  ",
    totalLabel: " ++ dq ++
  "Total Assets" ++ dq ++
  "
  },
  chartConfig: {
    equities: { label: " ++ dq ++
  "Equities" ++ dq ++
  " },
    bonds: { label: " ++ dq ++
  "Bonds" ++ dq ++
  " }
  }
}

Always:
- Generate real, contextually appropriate data
- Use proper financial formatting
- Include relevant trends and insights
- Structure data exactly as needed for the chosen chart type
- Choose the most appropriate visualization for the data

Never:
- Use placeholder or static data
- Announce the tool usage
- Include technical implementation details in responses
- NEVER SAY you are using the generate_graph_data tool, just execute it when needed.

Focus on clear financial insights and let the visualization enhance understanding.".

(** [tool_choice] is the [type] of the choice. *)
Record Payload : Type := {
  anthropic_version : string;
  max_tokens : Z;
  temperature : Q;
  messages : list value;
  payload_tools : list ToolSchema;
  tool_choice : string;
  system : string
}.

Definition bedrockPayload (bedrockMessages : list value) : Payload := {|
  anthropic_version := "bedrock-2023-05-31";
  max_tokens := 4096;
  temperature := (7 # 10)%Q;
  messages := bedrockMessages;
  payload_tools := tools;
  tool_choice := "auto";
  system := system_prompt
|}.

(** ** The Input Normalizer (lines 154 to 217) *)

(** The callback of [messages.map]. *)
Definition outbound_message (msg : value) : result value :=
  role <- get msg "role" ;;
  content <- get msg "content" ;;
  Ok (VObj [("role", role); ("content", content)]).

(** [messages[messages.length - 1].content]. *)
Definition last_content (messages : list value) : result value :=
  get (last messages VUndef) "content".

(** [bedrockMessages[bedrockMessages.length - 1] = v].  The right-hand
    sides that are assigned read the last message first, so the array is not
    empty when the assignment takes place. *)
Definition set_last (bedrockMessages : list value) (v : value) : list value :=
  removelast bedrockMessages ++ [v].

Definition text_block (text : value) : value :=
  VObj [("type", VStr "text"); ("text", text)].

Definition image_block (mediaType base64 : value) : value :=
  VObj [("type", VStr "image");
        ("source", VObj [("type", VStr "base64");
                         ("media_type", mediaType);
                         ("data", base64)])].

Definition user_message (blocks : list value) : value :=
  VObj [("role", VStr "user"); ("content", VArr blocks)].

(** [mediaType.startsWith("image/")]. *)
Definition startsWith (v : value) (p : string) : result bool :=
  match v with
  | VStr s => Ok (String.prefix p s)
  | _ => Throw (TypeError "mediaType.startsWith is not a function")
  end.

(** The body of the inner [try]. *)
Definition attach (fileData : value) (messages bedrockMessages : list value)
  : result (list value) :=
  let base64 := prop fileData "base64" in
  let mediaType := prop fileData "mediaType" in
  let isText := prop fileData "isText" in
  if truthy isText then
    encoded <- to_string base64 ;;
    binary <- atob encoded ;;
    textContent <- decode_utf8 binary ;;
    fileName <- to_string (prop fileData "fileName") ;;
    original <- last_content messages ;;
    Ok (set_last bedrockMessages
          (user_message
             [ text_block
                 (VStr ("File contents of " ++ fileName ++ ":" ++ LF ++ LF
                        ++ textContent));
               text_block original ]))
  else
    isImage <- startsWith mediaType "image/" ;;
    if isImage then
      original <- last_content messages ;;
      Ok (set_last bedrockMessages
            (user_message [image_block mediaType base64; text_block original]))
    else Ok bedrockMessages.

(** The handler up to the call of the service (lines 129 to 334), on the
    parsed body of the request: an exception, a response returned early, or
    the model and the payload of the request. *)
Definition prepare (request : value)
  : result (Response + value * Payload) :=
  if nullish request
  then Throw (TypeError "Cannot destructure a null request body") else
  let messages := prop request "messages" in
  let fileData := prop request "fileData" in
  let model := prop request "model" in
  if negb (truthy messages) || negb (isArray messages)
  then Ok (inl (bad_request "Messages array is required")) else
  if negb (truthy model)
  then Ok (inl (bad_request "Model selection is required")) else
  bedrockMessages <- mapM outbound_message (elements messages) ;;
  if truthy fileData then
    if negb (truthy (prop fileData "base64"))
    then Ok (inl (bad_request "No file data")) else
    match attach fileData (elements messages) bedrockMessages with
    | Ok bedrockMessages => Ok (inr (model, bedrockPayload bedrockMessages))
    | Throw _ => Ok (inl (bad_request "Failed to process file content"))
    end
  else Ok (inr (model, bedrockPayload bedrockMessages)).

(** ** Documents as they are written: [JSON.parse] (line 353)

    A JSON text, with the members of an object in the order in which they
    are written.  [JSON.parse] defines the members of an object one after
    the other: a name that is written twice keeps its first place and its
    last value, and the names that are array indices are enumerated before
    the others. *)

Unset Elimination Schemes.
Set Elimination Schemes.


(** ** The Dispatcher's answer and the Response Parser *)

(** What [bedrock.send] followed by [JSON.parse] gives back. *)
Inductive upstream : Type :=
| Reply (response : value)
| Failure (e : exn).

Definition find_type (type : string) (blocks : list value) : value :=
  match find (fun c => is_string (prop c "type") type) blocks with
  | Some c => c
  | None => VUndef
  end.

Definition hasToolUse (blocks : list value) : bool :=
  existsb (fun c => is_string (prop c "type") "tool_use") blocks.

(** The handler after the call of the service (lines 353 to 435).  The
    logging reads the [type] of every block of the reply. *)
Definition finish (u : upstream) : result Response :=
  match u with
  | Failure e => Throw e
  | Reply response =>
      content <- get response "content" ;;
      blocks <- (if isArray content then Ok (elements content)
                 else Throw (TypeError "response.content.some is not a function")) ;;
      _ <- mapM (fun c => get c "type") blocks ;;
      let toolUseContent := find_type "tool_use" blocks in
      let textContent := find_type "text" blocks in
      st <- (if truthy toolUseContent then processToolResponse toolUseContent
             else Ok (toolUseContent, VNull)) ;;
      let (toolUseContent, processedChartData) := st : value * value in
      let text := if nullish textContent then VUndef
                  else prop textContent "text" in
      Ok {| status := VNum 200;
            body := VObj [("content", js_or text (VStr EmptyString));
                          ("hasToolUse", VBool (hasToolUse blocks));
                          ("toolUse", toolUseContent);
                          ("chartData", processedChartData)];
            headers := [("Content-Type", "application/json");
                        ("Cache-Control", "no-cache")] |}
  end.

(** ** The endpoint *)

(** What a call of [POST] does: it responds, or it ends with an exception
    (the promise it returned is rejected), or it calls the service and goes
    on with the answer, to a response or to an exception. *)
Inductive handler : Type :=
| Respond (r : Response)
| Reject (e : exn)
| Send (modelId : value) (payload : Payload)
    (k : upstream -> result Response).

Definition conclude (u : upstream) : result Response :=
  match finish u with
  | Ok r => Ok r
  | Throw e => on_error e
  end.

Definition POST (request : value) : handler :=
  match prepare request with
  | Throw e =>
      match on_error e with
      | Ok r => Respond r
      | Throw e' => Reject e'
      end
  | Ok (inl r) => Respond r
  | Ok (inr (model, payload)) => Send model payload conclude
  end.

(** The response of the endpoint when the service answers [u], or the
    exception the call ends with. *)
Definition run (request : value) (u : upstream) : result Response :=
  match POST request with
  | Respond r => Ok r
  | Reject e => Throw e
  | Send _ _ k => k u
  end.

(** ** Vocabulary of the properties *)

(** The error of the structural validation. *)
Definition chart_error : exn := JsError "Error" "Invalid chart data structure".

(** A valid invocation: a parsed document whose input has the shape the
    registry declares for [generate_graph_data]. *)
Definition valid_invocation (toolUseContent : value) : bool :=
  json_value toolUseContent
  && conforms (input_schema generate_graph_data) (prop toolUseContent "input").

(** An entry of [chartConfig] with the colour of its position. *)
Definition colored (index : nat) (entry : string * value) : string * value :=
  (fst entry,
   VObj (obj_set "color" (VStr (color_var (index + 1)))
           (spread_into [] (snd entry)))).

Fixpoint color_from (index : nat) (es : list (string * value))
  : list (string * value) :=
  match es with
  | [] => []
  | e :: r => colored index e :: color_from (S index) r
  end.

(** The name under which a pie row is read for its value: the first key of
    [chartConfig], and the key [undefined] turns into when there is none. *)
Definition value_key (chartConfig : value) : string :=
  match own_entries chartConfig with
  | (k, _) :: _ => k
  | [] => "undefined"
  end.

(** The name under which a pie row is read for its segment. *)
Definition segment_key (config : value) : string :=
  match js_or (prop config "xAxisKey") (VStr "segment") with
  | VStr s => s
  | _ => "segment"
  end.

(** The pie row made of [row]: for each of the two keys, the first truthy
    one of the fields it is read from (the last one if none is). *)
Definition pie_slice (config chartConfig row : value) : value :=
  VObj [("segment",
         js_or (js_or (js_or (prop row (segment_key config))
                             (prop row "segment"))
                      (prop row "category"))
               (prop row "name"));
        ("value",
         js_or (prop row (value_key chartConfig)) (prop row "value"))].

(** The outbound copy of a message. *)
Definition copied (msg : value) : value :=
  VObj [("role", prop msg "role"); ("content", prop msg "content")].

(** Whether the Input Normalizer rewrites the last message. *)
Definition rewrites (fileData : value) : bool :=
  truthy fileData
  && (truthy (prop fileData "isText")
      || match prop fileData "mediaType" with
         | VStr s => String.prefix "image/" s
         | _ => false
         end).

(** The structural validation as the design document words it: the chart
    type is one of the six known values and the data is an array. *)
Definition spec_structurally_valid (input : value) : bool :=
  match prop input "chartType" with
  | VStr t => mem t chart_types
  | _ => false
  end
  && isArray (prop input "data").





(** What [valid_invocation] says of the input, spelled out. *)
Inductive chart_input : value -> Prop :=
| ChartInput (fs cfs es : list (string * value)) (t : string)
    (rows : list value)
    (WF : wf_keys fs = true)
    (TYPE : lookup "chartType" fs = Some (VStr t))
    (KNOWN : mem t chart_types = true)
    (CONFIG : lookup "config" fs = Some (VObj cfs))
    (CONFIG_WF : wf_keys cfs = true)
    (XAXIS : forall x, lookup "xAxisKey" cfs = Some x -> exists s, x = VStr s)
    (DATA : lookup "data" fs = Some (VArr rows))
    (ROWS : forall row, In row rows -> exists rfs, row = VObj rfs)
    (CHARTCONFIG : lookup "chartConfig" fs = Some (VObj es))
    (ENTRIES_WF : wf_keys es = true)
    (ENTRIES : forall k v, In (k, v) es ->
                 exists efs, v = VObj efs /\ wf_keys efs = true)
  : chart_input (VObj fs).

(** A computation whose only exceptions are type errors. *)
Definition only_type_errors {A} (m : result A) : Prop :=
  forall e, m = Throw e -> exists what, e = TypeError what.

(** ** Sample documents *)

Definition str (s : string) : value := VStr s.

Definition tool_use (id name : string) (input : value) : value :=
  VObj [("type", str "tool_use"); ("id", str id); ("name", str name);
        ("input", input)].

Definition reply_with (blocks : list value) : value :=
  VObj [("id", str "msg_01"); ("type", str "message");
        ("role", str "assistant"); ("content", VArr blocks);
        ("stop_reason", str "tool_use")].

(** A comparison of two series; the second one comes with a colour. *)
Definition example_bar : value :=
  tool_use "toolu_01" "generate_graph_data"
    (VObj
       [("chartType", str "multiBar");
        ("config",
         VObj [("title", str "Product Performance");
               ("description", str "Sales vs Costs by Product");
               ("xAxisKey", str "category")]);
        ("data",
         VArr [VObj [("category", str "Product A"); ("sales", VNum 450000);
                     ("costs", VNum 280000)];
               VObj [("category", str "Product B"); ("sales", VNum 650000);
                     ("costs", VNum 420000)]]);
        ("chartConfig",
         VObj [("sales", VObj [("label", str "Sales ($)")]);
               ("costs", VObj [("label", str "Costs ($)");
                               ("color", str "red")])])]).

(** A distribution whose rows name their fields [asset] and [amount]. *)
Definition example_pie : value :=
  tool_use "toolu_02" "generate_graph_data"
    (VObj
       [("chartType", str "pie");
        ("config",
         VObj [("title", str "Portfolio Allocation");
               ("description", str "Current investment distribution");
               ("xAxisKey", str "asset")]);
        ("data",
         VArr [VObj [("asset", str "Equities"); ("amount", VNum 5500000)];
               VObj [("asset", str "Bonds"); ("amount", VNum 3200000)]]);
        ("chartConfig", VObj [("amount", VObj [("label", str "Amount")])])]).




(** A chart type outside the six of the registry. *)
Definition example_scatter : value :=
  tool_use "toolu_03" "generate_graph_data"
    (VObj
       [("chartType", str "scatter");
        ("config", VObj [("title", str "Risk and return");
                         ("description", str "Volatility against yield")]);
        ("data", VArr [VObj [("risk", VNum 3); ("yield", VNum 7)]]);
        ("chartConfig", VObj [("yield", VObj [("label", str "Yield")])])]).

(** A bar chart without rows. *)
Definition example_empty : value :=
  tool_use "toolu_04" "generate_graph_data"
    (VObj
       [("chartType", str "bar");
        ("config", VObj [("title", str "Quarterly Revenue");
                         ("description", str "Revenue growth over time")]);
        ("data", VArr []);
        ("chartConfig", VObj [("revenue", VObj [("label", str "Revenue")])])]).

(** An invocation of the price-lookup tool. *)
Definition example_price : value :=
  tool_use "toolu_05" "get_stock_price"
    (VObj [("ticker", str "AAPL"); ("start", str "2024-01-02");
           ("end", str "2024-02-02")]).

Definition example_question : value :=
  VObj [("messages",
         VArr [VObj [("role", str "user");
                     ("content", str "How did AAPL close last month?")]]);
        ("model", str "anthropic.claude-3-haiku-20240307-v1:0")].

(** A text attachment on a conversation whose last turn is the
    assistant's. *)
Definition example_attachment : value :=
  VObj [("messages",
         VArr [VObj [("role", str "user"); ("content", str "hi")];
               VObj [("role", str "assistant"); ("content", str "summarize")]]);
        ("fileData",
         VObj [("base64", str "aGVsbG8="); ("mediaType", str "text/plain");
               ("fileName", str "a.txt"); ("isText", VBool true)]);
        ("model", str "anthropic.claude-3-haiku-20240307-v1:0")].

(** The outbound messages of [example_attachment]. *)
Definition example_outbound : list value :=
  [ VObj [("role", str "user"); ("content", str "hi")];
    user_message
      [ text_block (VStr ("File contents of a.txt:" ++ LF ++ LF ++ "hello"));
        text_block (str "summarize") ] ].

(** ** Vocabulary of the further properties *)

(** The body of a response that carries a result. *)
Definition result_body (b : value) : Prop :=
  exists content hasToolUse toolUse chartData,
    b = VObj [("content", content); ("hasToolUse", VBool hasToolUse);
              ("toolUse", toolUse); ("chartData", chartData)].

(** The body of a response that reports an error. *)
Definition error_body (b : value) : Prop :=
  exists message,
    prop b "error" = VStr message
    /\ prop b "content" = VUndef /\ prop b "hasToolUse" = VUndef
    /\ prop b "toolUse" = VUndef /\ prop b "chartData" = VUndef.

(** A status a response with a body can have: one from 200 to 599 that is
    not 204, 205 or 304. *)
Definition valid_status (n : N) : Prop :=
  (200 <= n <= 599)%N /\ n <> 204%N /\ n <> 205%N /\ n <> 304%N.

(** The content of a response: the text of the first text block of the
    reply, and the empty string when there is none or when it is falsy. *)
Definition first_text (blocks : list value) : value :=
  match find (fun c => is_string (prop c "type") "text") blocks with
  | Some c => js_or (prop c "text") (VStr EmptyString)
  | None => VStr EmptyString
  end.

(** The response that carries a result. *)
Definition result_response (content : value) (hasToolUse : bool)
  (toolUse chartData : value) : Response := {|
  status := VNum 200;
  body := VObj [("content", content); ("hasToolUse", VBool hasToolUse);
                ("toolUse", toolUse); ("chartData", chartData)];
  headers := [("Content-Type", "application/json");
              ("Cache-Control", "no-cache")]
|}.

(** ** Further sample documents *)

Definition model_id : value := str "anthropic.claude-3-haiku-20240307-v1:0".

Definition question : value :=
  VObj [("role", str "user"); ("content", str "What does this file show?")].

Definition request_with (msgs : list value) (fileData : value) : value :=
  VObj [("messages", VArr msgs); ("fileData", fileData); ("model", model_id)].

(** An empty text file. *)
Definition empty_file : value :=
  VObj [("base64", str EmptyString); ("mediaType", str "text/plain");
        ("fileName", str "empty.txt"); ("isText", VBool true)].


Definition png_file : value :=
  VObj [("base64", str "iVBORw0KGgo="); ("mediaType", str "image/png");
        ("fileName", str "chart.png"); ("isText", VBool false)].

Definition pdf_file : value :=
  VObj [("base64", str "JVBERi0x"); ("mediaType", str "application/pdf");
        ("fileName", str "report.pdf"); ("isText", VBool false)].

Definition text_reply : value :=
  VObj [("type", str "text"); ("text", str "Here is the comparison.")].

(** A line chart that passes the validation and has no [chartConfig]. *)
Definition example_no_chartConfig : value :=
  tool_use "toolu_07" "generate_graph_data"
    (VObj [("chartType", str "line");
           ("config", VObj [("title", str "Revenue");
                            ("description", str "Revenue over time")]);
           ("data", VArr [VObj [("period", str "Q1"); ("revenue", VNum 1)]])]).

(** * Properties *)

(** ** Own properties of an object *)

Section OwnProperties.

Implicit Types (k : string) (v : value) (fs : list (string * value)).

Lemma lookup_replace_same k v fs x :
  lookup k fs = Some x -> lookup k (replace k v fs) = Some v.
Proof.
  induction fs as [|[k' v'] r IH]; simpl; [discriminate|].
  destruct (String.eqb k' k) eqn:E; simpl; rewrite E; auto.
Qed.

Lemma lookup_replace_other k k' v fs :
  k' <> k -> lookup k' (replace k v fs) = lookup k' fs.
Proof.
  intros N. induction fs as [|[a x] r IH]; simpl; [reflexivity|].
  destruct (String.eqb a k) eqn:E; simpl.
  - apply String.eqb_eq in E. subst a.
    destruct (String.eqb k k') eqn:E'; [|reflexivity].
    apply String.eqb_eq in E'. congruence.
  - rewrite IH. reflexivity.
Qed.

Lemma keys_replace k v fs : keys (replace k v fs) = keys fs.
Proof.
  induction fs as [|[a x] r IH]; simpl; [reflexivity|].
  destruct (String.eqb a k); simpl; [reflexivity|]. f_equal. exact IH.
Qed.

Lemma replace_same k v fs : lookup k fs = Some v -> replace k v fs = fs.
Proof.
  induction fs as [|[a x] r IH]; simpl; [reflexivity|].
  destruct (String.eqb a k); intros H.
  - congruence.
  - f_equal. auto.
Qed.

Lemma lookup_app_new k v fs :
  lookup k fs = None -> lookup k (fs ++ [(k, v)])%list = Some v.
Proof.
  induction fs as [|[a x] r IH]; simpl.
  - rewrite String.eqb_refl. reflexivity.
  - destruct (String.eqb a k); [discriminate|auto].
Qed.

Lemma lookup_app_other k k' v fs :
  k' <> k -> lookup k' (fs ++ [(k, v)])%list = lookup k' fs.
Proof.
  intros N. induction fs as [|[a x] r IH]; simpl.
  - destruct (String.eqb k k') eqn:E; [|reflexivity].
    apply String.eqb_eq in E. congruence.
  - rewrite IH. reflexivity.
Qed.

Lemma lookup_insert_index_new n k v fs :
  lookup k fs = None -> lookup k (insert_index n k v fs) = Some v.
Proof.
  induction fs as [|[a x] r IH]; simpl.
  - rewrite String.eqb_refl. reflexivity.
  - destruct (String.eqb a k) eqn:E; [discriminate|]. intros H.
    destruct (array_index a) as [m|]; [destruct (m <? n)%N|]; simpl;
      rewrite ?E, ?String.eqb_refl; auto.
Qed.

Lemma lookup_insert_index_other n k k' v fs :
  k' <> k -> lookup k' (insert_index n k v fs) = lookup k' fs.
Proof.
  intros N.
  assert (F : String.eqb k k' = false)
    by (apply String.eqb_neq; congruence).
  induction fs as [|[a x] r IH]; simpl.
  - rewrite F. reflexivity.
  - destruct (array_index a) as [m|]; [destruct (m <? n)%N|]; simpl;
      rewrite ?F, ?IH; reflexivity.
Qed.

(** What a property holds after [obj_set]. *)
Lemma lookup_obj_set_same k v fs : lookup k (obj_set k v fs) = Some v.
Proof.
  unfold obj_set. destruct (lookup k fs) eqn:L.
  - eapply lookup_replace_same; eauto.
  - destruct (array_index k).
    + apply lookup_insert_index_new; assumption.
    + apply lookup_app_new; assumption.
Qed.

Lemma lookup_obj_set_other k k' v fs :
  k' <> k -> lookup k' (obj_set k v fs) = lookup k' fs.
Proof.
  intros N. unfold obj_set. destruct (lookup k fs).
  - apply lookup_replace_other; assumption.
  - destruct (array_index k).
    + apply lookup_insert_index_other; assumption.
    + apply lookup_app_other; assumption.
Qed.

Lemma obj_set_same k v fs : lookup k fs = Some v -> obj_set k v fs = fs.
Proof.
  intros L. unfold obj_set. rewrite L. apply replace_same. exact L.
Qed.

Lemma keys_obj_set_own k v fs x :
  lookup k fs = Some x -> keys (obj_set k v fs) = keys fs.
Proof.
  intros L. unfold obj_set. rewrite L. apply keys_replace.
Qed.

Lemma lookup_mem k fs : lookup k fs = None <-> mem k (keys fs) = false.
Proof.
  induction fs as [|[a x] r IH]; simpl; [tauto|].
  destruct (String.eqb a k); simpl; [split; discriminate|exact IH].
Qed.

(** *** The order of the keys *)

Lemma keys_ordered_app_l (a b : list string) :
  keys_ordered (a ++ b)%list = true -> keys_ordered a = true.
Proof.
  induction a as [|x r IH]; simpl; [reflexivity|].
  destruct r as [|y r']; [reflexivity|]. simpl in *.
  intros H. apply andb_true_iff in H as [H1 H2].
  rewrite H1. simpl. apply IH. exact H2.
Qed.

Lemma mem_app k (a b : list string) : mem k (a ++ b)%list = mem k a || mem k b.
Proof.
  induction a as [|x r IH]; simpl; [reflexivity|].
  rewrite IH. apply orb_assoc.
Qed.

Lemma keys_distinct_app_l (a b : list string) :
  keys_distinct (a ++ b)%list = true -> keys_distinct a = true.
Proof.
  induction a as [|x r IH]; simpl; [reflexivity|].
  intros H. apply andb_true_iff in H as [H1 H2].
  rewrite mem_app, negb_orb in H1. apply andb_true_iff in H1 as [H1 _].
  rewrite H1. simpl. auto.
Qed.

Lemma keys_distinct_last k (ks : list string) :
  keys_distinct (ks ++ [k])%list = true -> mem k ks = false.
Proof.
  induction ks as [|x r IH]; simpl; [reflexivity|].
  intros H. apply andb_true_iff in H as [H1 H2].
  rewrite mem_app, negb_orb in H1. apply andb_true_iff in H1 as [_ H1].
  simpl in H1. rewrite orb_false_r in H1.
  rewrite String.eqb_sym. apply negb_true_iff in H1. rewrite H1. simpl. auto.
Qed.

Lemma ordered_before_index a (l : list string) k n :
  keys_ordered (a :: l ++ [k])%list = true -> array_index k = Some n ->
  exists m, array_index a = Some m /\ (m < n)%N.
Proof.
  revert a. induction l as [|b l IH]; intros a H K.
  - simpl in H. rewrite andb_true_r in H. unfold key_before in H.
    rewrite K in H. destruct (array_index a) as [m|]; [|discriminate].
    exists m. split; [reflexivity|]. apply N.ltb_lt. exact H.
  - change (key_before a b && keys_ordered (b :: l ++ [k])%list = true) in H.
    apply andb_true_iff in H as [H1 H2].
    destruct (IH b H2 K) as (mb & Eb & Lb).
    unfold key_before in H1. rewrite Eb in H1.
    destruct (array_index a) as [m|]; [|discriminate].
    exists m. split; [reflexivity|]. apply N.ltb_lt in H1. lia.
Qed.

Lemma insert_index_last n k v fs :
  keys_ordered (keys fs ++ [k])%list = true -> array_index k = Some n ->
  insert_index n k v fs = (fs ++ [(k, v)])%list.
Proof.
  intros H K. induction fs as [|[a x] r IH]; simpl; [reflexivity|].
  change (keys_ordered (a :: keys r ++ [k])%list = true) in H.
  destruct (ordered_before_index _ _ _ _ H K) as (m & Ea & Lt).
  rewrite Ea. apply N.ltb_lt in Lt. rewrite Lt. f_equal. apply IH.
  simpl in H. destruct (keys r ++ [k])%list eqn:E; [reflexivity|].
  apply andb_true_iff in H as [_ H]. exact H.
Qed.

(** Defining a key that comes last in the order of the keys appends it. *)
Lemma obj_set_append k v fs :
  wf_keys (fs ++ [(k, v)])%list = true ->
  obj_set k v fs = (fs ++ [(k, v)])%list.
Proof.
  unfold wf_keys, keys. rewrite map_app. simpl. fold (keys fs).
  intros H. apply andb_true_iff in H as [O D].
  apply keys_distinct_last in D. apply lookup_mem in D.
  unfold obj_set. rewrite D.
  destruct (array_index k) eqn:K; [|reflexivity].
  apply insert_index_last; assumption.
Qed.

Lemma wf_keys_app_l fs gs : wf_keys (fs ++ gs)%list = true -> wf_keys fs = true.
Proof.
  unfold wf_keys, keys. rewrite map_app. intros H.
  apply andb_true_iff in H as [O D].
  rewrite (keys_ordered_app_l _ _ O), (keys_distinct_app_l _ _ D).
  reflexivity.
Qed.

(** Copying the properties of a well-formed object one by one rebuilds
    it. *)
Lemma fold_obj_set_app fs : forall acc,
  wf_keys (acc ++ fs)%list = true ->
  fold_left (fun a p => obj_set (fst p) (snd p) a) fs acc = (acc ++ fs)%list.
Proof.
  induction fs as [|[k v] r IH]; intros acc W; simpl.
  - rewrite app_nil_r. reflexivity.
  - replace (acc ++ (k, v) :: r)%list with ((acc ++ [(k, v)]) ++ r)%list in *
      by (rewrite <- app_assoc; reflexivity).
    rewrite obj_set_append by (eapply wf_keys_app_l; eassumption).
    apply IH. exact W.
Qed.

Lemma spread_object fs :
  wf_keys fs = true -> spread_into [] (VObj fs) = fs.
Proof.
  intros W. unfold spread_into. simpl. apply (fold_obj_set_app fs []). exact W.
Qed.

End OwnProperties.

(** ** Parsed documents *)

Section Documents.

Implicit Types (k : string) (v : value) (fs : list (string * value)).

Lemma json_object_wf fs : json_value (VObj fs) = true -> wf_keys fs = true.
Proof.
  simpl. intros H. apply andb_true_iff in H. tauto.
Qed.

Lemma json_object_lookup fs k v :
  json_value (VObj fs) = true -> lookup k fs = Some v -> json_value v = true.
Proof.
  simpl. intros H. apply andb_true_iff in H as [_ H]. revert H.
  induction fs as [|[a x] r IH]; simpl; [discriminate|].
  intros H. apply andb_true_iff in H as [H1 H2].
  destruct (String.eqb a k); intros L.
  - injection L as <-. exact H1.
  - auto.
Qed.

Lemma wf_keys_same_keys fs gs :
  keys fs = keys gs -> wf_keys fs = wf_keys gs.
Proof.
  unfold wf_keys. intros ->. reflexivity.
Qed.

Lemma keys_ordered_named (ks : list string) k :
  array_index k = None -> keys_ordered ks = true ->
  keys_ordered (ks ++ [k])%list = true.
Proof.
  intros K. induction ks as [|a r IH]; [reflexivity|].
  destruct r as [|b r'].
  - intros _. simpl. unfold key_before. rewrite K.
    destruct (array_index a); reflexivity.
  - intros H.
    change (key_before a b && keys_ordered (b :: r') = true) in H.
    apply andb_true_iff in H as [H1 H2].
    change (key_before a b && keys_ordered ((b :: r') ++ [k])%list = true).
    rewrite H1. simpl andb. apply IH. exact H2.
Qed.

Lemma keys_distinct_new (ks : list string) k :
  mem k ks = false -> keys_distinct ks = true ->
  keys_distinct (ks ++ [k])%list = true.
Proof.
  induction ks as [|a r IH]; simpl; [reflexivity|].
  intros M H. apply orb_false_iff in M as [M1 M2].
  apply andb_true_iff in H as [H1 H2].
  rewrite mem_app, negb_orb, H1. simpl.
  rewrite String.eqb_sym, M1. simpl. auto.
Qed.

(** Writing a property whose name is not an array index keeps an object
    well formed. *)
Lemma wf_obj_set_named k v fs :
  array_index k = None -> wf_keys fs = true ->
  wf_keys (obj_set k v fs) = true.
Proof.
  intros K W. unfold obj_set. destruct (lookup k fs) eqn:L.
  - rewrite (wf_keys_same_keys _ fs); [exact W|apply keys_replace].
  - rewrite K. unfold wf_keys, keys in *. rewrite map_app. simpl.
    apply andb_true_iff in W as [O D]. apply lookup_mem in L.
    rewrite keys_ordered_named, keys_distinct_new; auto.
Qed.



End Documents.

(** ** Colour assignment *)

Section Colours.

Implicit Types (es acc : list (string * value)).

Lemma keys_color_from es : forall i, keys (color_from i es) = keys es.
Proof.
  induction es as [|e r IH]; intros i; simpl; [reflexivity|].
  f_equal. apply IH.
Qed.

Lemma colorize_app acc e i :
  wf_keys (acc ++ [e])%list = true ->
  colorize acc e i = (acc ++ [colored i e])%list.
Proof.
  intros W. destruct e as [k cfg]. unfold colorize, colored. simpl fst.
  rewrite spread_object by (eapply wf_keys_app_l; eassumption).
  apply obj_set_append.
  rewrite (wf_keys_same_keys _ (acc ++ [(k, cfg)])%list); [exact W|].
  unfold keys. rewrite !map_app. reflexivity.
Qed.

(** The [reduce] goes through the entries in their order and gives each the
    colour of its position. *)
Lemma reduce_colorize es : forall i acc,
  wf_keys (acc ++ es)%list = true ->
  reduce_from colorize es i acc = (acc ++ color_from i es)%list.
Proof.
  induction es as [|e r IH]; intros i acc W; simpl.
  - rewrite app_nil_r. reflexivity.
  - assert (W' : wf_keys ((acc ++ [e]) ++ r)%list = true)
      by (rewrite <- app_assoc; exact W).
    rewrite colorize_app by (eapply wf_keys_app_l; eassumption).
    rewrite IH.
    + rewrite <- app_assoc. reflexivity.
    + rewrite (wf_keys_same_keys _ ((acc ++ [e]) ++ r)%list); [exact W'|].
      unfold keys. rewrite !map_app. reflexivity.
Qed.

Lemma processed_chartConfig es :
  wf_keys es = true -> reduce colorize es [] = color_from 0 es.
Proof.
  intros W. unfold reduce. rewrite reduce_colorize; [reflexivity|exact W].
Qed.


(** Colouring twice is colouring once. *)
Lemma colored_twice i k fs :
  wf_keys fs = true ->
  colored i (colored i (k, VObj fs)) = colored i (k, VObj fs).
Proof.
  intros W. unfold colored. simpl fst. simpl snd. f_equal. f_equal.
  rewrite (spread_object _ W).
  rewrite spread_object by (apply wf_obj_set_named; [reflexivity|exact W]).
  apply obj_set_same. apply lookup_obj_set_same.
Qed.

Lemma color_from_twice es :
  (forall k v, In (k, v) es -> exists fs, v = VObj fs /\ wf_keys fs = true) ->
  forall i, color_from i (color_from i es) = color_from i es.
Proof.
  induction es as [|[k v] r IH]; intros H i; simpl; [reflexivity|].
  destruct (H k v (or_introl eq_refl)) as (fs & -> & W).
  fold (colored i (k, VObj fs)). rewrite (colored_twice i k _ W).
  f_equal. apply IH. intros k' v' I. apply (H k' v'). right. exact I.
Qed.

End Colours.

(** ** Valid invocations *)

Section ValidInvocations.

(** A property with an ordinary name that holds a value is an own property
    of an object. *)
Lemma prop_named_inv v k x :
  mem k object_prototype_keys = false -> array_index k = None ->
  String.eqb k "length" = false ->
  prop v k = x -> x <> VUndef ->
  exists tfs, v = VObj tfs /\ lookup k tfs = Some x.
Proof.
  intros P A L. unfold prop, inherited. rewrite A, L, andb_false_r, P.
  destruct v; try congruence.
  destruct (lookup k fs) eqn:E; [|congruence].
  intros -> _. eauto.
Qed.

Lemma prop_object_inv v k fs :
  mem k object_prototype_keys = false -> array_index k = None ->
  String.eqb k "length" = false ->
  prop v k = VObj fs -> exists tfs, v = VObj tfs /\ lookup k tfs = Some (VObj fs).
Proof.
  intros P A L H. apply prop_named_inv; auto. discriminate.
Qed.

Lemma json_object_In fs k v :
  json_value (VObj fs) = true -> In (k, v) fs -> json_value v = true.
Proof.
  simpl. intros H I. apply andb_true_iff in H as [_ H].
  rewrite forallb_forall in H. apply (H (k, v) I).
Qed.

(** *** What conformance gives, schema by schema *)

Lemma conforms_TString enum v :
  conforms (TString enum) v = true ->
  exists t, v = VStr t
    /\ match enum with Some e => mem t e = true | None => True end.
Proof.
  destruct v; cbn [conforms]; try discriminate.
  intros H. exists s. split; [reflexivity|]. destruct enum; auto.
Qed.

Lemma conforms_TArray items v :
  conforms (TArray items) v = true ->
  exists xs, v = VArr xs /\ forall x, In x xs -> conforms items x = true.
Proof.
  destruct v; cbn [conforms]; try discriminate.
  intros H. exists xs. split; [reflexivity|].
  rewrite forallb_forall in H. exact H.
Qed.

Lemma conforms_TObject properties required additional v :
  conforms (TObject properties required additional) v = true ->
  exists fs, v = VObj fs
    /\ (forall k, In k required -> exists x, lookup k fs = Some x)
    /\ (forall k sk x, In (k, sk) properties -> lookup k fs = Some x ->
          conforms sk x = true)
    /\ (forall sa k x, additional = Some sa -> In (k, x) fs ->
          mem k (map fst properties) = false -> conforms sa x = true).
Proof.
  destruct v; cbn [conforms]; try discriminate.
  intros H. apply andb_true_iff in H as [H A].
  apply andb_true_iff in H as [R D].
  exists fs. split; [reflexivity|]. split; [|split].
  - intros k I. rewrite forallb_forall in R. specialize (R k I).
    unfold has_key in R. destruct (lookup k fs); [eauto|discriminate].
  - clear R A. induction properties as [|[k' sk'] r IH]; intros k sk x I L.
    + destruct I.
    + apply andb_true_iff in D as [D1 D2]. destruct I as [[= -> ->]|I].
      * rewrite L in D1. exact D1.
      * eapply IH; eauto.
  - intros sa k x -> I M. rewrite forallb_forall in A.
    specialize (A (k, x) I). simpl in A. rewrite M in A. exact A.
Qed.

Lemma valid_invocation_shape tu :
  valid_invocation tu = true ->
  exists tfs input, tu = VObj tfs /\ wf_keys tfs = true
    /\ lookup "input" tfs = Some input /\ chart_input input.
Proof.
  unfold valid_invocation. intros H. apply andb_true_iff in H as [J C].
  cbn [input_schema generate_graph_data] in C.
  apply conforms_TObject in C as (fs & I & Req & Decl & _).
  apply prop_object_inv in I as (tfs & -> & L); try reflexivity.
  exists tfs, (VObj fs). split; [reflexivity|].
  split; [apply json_object_wf; exact J|]. split; [exact L|].
  pose proof (json_object_lookup _ _ _ J L) as Jin.
  destruct (Req "chartType") as (ct & Lct); [simpl; tauto|].
  destruct (Req "config") as (cf & Lcf); [simpl; tauto|].
  destruct (Req "data") as (da & Lda); [simpl; tauto|].
  destruct (Req "chartConfig") as (cc & Lcc); [simpl; tauto|].
  pose proof (Decl _ _ _ (or_introl eq_refl) Lct) as Cct.
  pose proof (Decl _ _ _ (or_intror (or_introl eq_refl)) Lcf) as Ccf.
  pose proof (Decl _ _ _ (or_intror (or_intror (or_introl eq_refl))) Lda)
    as Cda.
  pose proof
    (Decl _ _ _ (or_intror (or_intror (or_intror (or_introl eq_refl)))) Lcc)
    as Ccc.
  cbn [conforms] in Cct. fold (conforms (TString (Some chart_types)) ct) in Cct.
  apply conforms_TString in Cct as (t & -> & Known).
  apply conforms_TObject in Ccf as (cfs & -> & _ & CDecl & _).
  apply conforms_TArray in Cda as (rows & -> & Rows).
  apply conforms_TObject in Ccc as (es & -> & _ & _ & Add).
  pose proof (json_object_lookup _ _ _ Jin Lcf) as Jcf.
  pose proof (json_object_lookup _ _ _ Jin Lcc) as Jcc.
  eapply ChartInput; eauto using json_object_wf.
  - intros x Lx.
    assert (Cx : conforms (TString None) x = true).
    { eapply CDecl; [|exact Lx]. simpl. tauto. }
    apply conforms_TString in Cx as (s & -> & _). eauto.
  - intros row I. apply Rows in I.
    apply conforms_TObject in I as (rfs & -> & _). eauto.
  - intros k v I.
    assert (Cv : conforms
                   (TObject [("label", TString None); ("stacked", TBoolean)]
                      ["label"] None) v = true)
      by (eapply Add; [reflexivity|exact I|reflexivity]).
    apply conforms_TObject in Cv as (efs & -> & _).
    exists efs. split; [reflexivity|].
    apply json_object_wf. eapply json_object_In; eauto.
Qed.

End ValidInvocations.

(** ** The normalizer on valid invocations *)

Section Normalizer.

Lemma prop_own fs k x : lookup k fs = Some x -> prop (VObj fs) k = x.
Proof.
  intros L. simpl. rewrite L. reflexivity.
Qed.

Lemma get_own fs k x : lookup k fs = Some x -> get (VObj fs) k = Ok x.
Proof.
  intros L. unfold get. simpl nullish. cbv iota. rewrite (prop_own _ _ _ L).
  reflexivity.
Qed.

Lemma mapM_ok {A B} (f : A -> result B) (g : A -> B) (l : list A) :
  (forall x, In x l -> f x = Ok (g x)) -> mapM f l = Ok (map g l).
Proof.
  induction l as [|a r IH]; intros H; simpl; [reflexivity|].
  rewrite (H a (or_introl eq_refl)). simpl.
  rewrite IH by (intros x I; apply H; right; exact I). reflexivity.
Qed.

(** The normalizer on a valid invocation that is not a pie chart. *)
Lemma normalize_other tfs fs es t rows :
  wf_keys fs = true ->
  lookup "input" tfs = Some (VObj fs) ->
  lookup "chartType" fs = Some (VStr t) ->
  truthy (VStr t) = true ->
  String.eqb t "pie" = false ->
  lookup "data" fs = Some (VArr rows) ->
  lookup "chartConfig" fs = Some (VObj es) ->
  wf_keys es = true ->
  processToolResponse (VObj tfs)
  = Ok (VObj tfs,
        VObj (obj_set "chartConfig" (VObj (color_from 0 es)) fs)).
Proof.
  intros WF INPUT TYPE TRUE PIE DATA CC EWF.
  unfold processToolResponse. cbn [truthy negb].
  rewrite (get_own _ _ _ INPUT). cbn [bind].
  rewrite (get_own _ _ _ TYPE). cbn [bind].
  rewrite TRUE, (prop_own _ _ _ DATA). cbn [truthy isArray negb orb].
  cbn [is_string]. rewrite PIE. cbn [bind].
  rewrite (prop_own _ _ _ CC). unfold Object_entries. cbn [nullish bind own_entries].
  rewrite (processed_chartConfig _ EWF), (spread_object _ WF). reflexivity.
Qed.

Lemma to_string_segment_key cfs :
  (forall x, lookup "xAxisKey" cfs = Some x -> exists s, x = VStr s) ->
  to_string (js_or (prop (VObj cfs) "xAxisKey") (VStr "segment"))
  = Ok (segment_key (VObj cfs)).
Proof.
  intros X. unfold segment_key. cbn [prop].
  destruct (lookup "xAxisKey" cfs) as [x|] eqn:L.
  - destruct (X x eq_refl) as (s & ->). unfold js_or.
    destruct (truthy (VStr s)); reflexivity.
  - reflexivity.
Qed.

Lemma pie_row_ok fs cfs es rfs :
  lookup "config" fs = Some (VObj cfs) ->
  (forall x, lookup "xAxisKey" cfs = Some x -> exists s, x = VStr s) ->
  lookup "chartConfig" fs = Some (VObj es) ->
  pie_row (VObj fs) (VObj rfs)
  = Ok (pie_slice (VObj cfs) (VObj es) (VObj rfs)).
Proof.
  intros CONFIG XAXIS CC. unfold pie_row.
  rewrite (prop_own _ _ _ CC), (prop_own _ _ _ CONFIG).
  unfold Object_keys, Object_entries. cbn [nullish own_entries bind].
  unfold get at 1. cbn [nullish bind].
  rewrite (to_string_segment_key _ XAXIS). cbn [bind].
  unfold get at 1. cbn [nullish bind].
  unfold pie_slice, value_key. cbn [own_entries].
  destruct es as [|[k v] r]; cbn [keys map fst to_string bind];
    unfold get; cbn [nullish bind]; reflexivity.
Qed.

(** The names a pie row is read under. *)
Lemma segment_key_given config s :
  prop config "xAxisKey" = VStr s -> truthy (VStr s) = true ->
  segment_key config = s.
Proof.
  intros X T. unfold segment_key, js_or. rewrite X, T. reflexivity.
Qed.

Lemma segment_key_default config :
  truthy (prop config "xAxisKey") = false -> segment_key config = "segment".
Proof.
  intros T. unfold segment_key, js_or. rewrite T. reflexivity.
Qed.

Lemma value_key_first chartConfig k v r :
  own_entries chartConfig = (k, v) :: r -> value_key chartConfig = k.
Proof.
  intros E. unfold value_key. rewrite E. reflexivity.
Qed.

(** The normalizer on a valid invocation that is a pie chart. *)
Lemma normalize_pie tfs fs cfs es rows :
  wf_keys fs = true ->
  lookup "input" tfs = Some (VObj fs) ->
  lookup "chartType" fs = Some (VStr "pie") ->
  lookup "config" fs = Some (VObj cfs) ->
  (forall x, lookup "xAxisKey" cfs = Some x -> exists s, x = VStr s) ->
  lookup "data" fs = Some (VArr rows) ->
  (forall row, In row rows -> exists rfs, row = VObj rfs) ->
  lookup "chartConfig" fs = Some (VObj es) ->
  wf_keys es = true ->
  let data := map (pie_slice (VObj cfs) (VObj es)) rows in
  let fs1 := obj_set "data" (VArr data) fs in
  let fs2 :=
    obj_set "config" (VObj (obj_set "xAxisKey" (VStr "segment") cfs)) fs1 in
  processToolResponse (VObj tfs)
  = Ok (VObj (obj_set "input" (VObj fs2) tfs),
        VObj (obj_set "chartConfig" (VObj (color_from 0 es)) fs2)).
Proof.
  intros WF INPUT TYPE CONFIG XAXIS DATA ROWS CC EWF data fs1 fs2.
  assert (CONFIG1 : lookup "config" fs1 = Some (VObj cfs)).
  { unfold fs1. rewrite lookup_obj_set_other by discriminate. exact CONFIG. }
  assert (CC2 : lookup "chartConfig" fs2 = Some (VObj es)).
  { unfold fs2, fs1. rewrite !lookup_obj_set_other by discriminate. exact CC. }
  assert (WF2 : wf_keys fs2 = true).
  { rewrite (wf_keys_same_keys _ fs); [exact WF|]. unfold fs2.
    rewrite (keys_obj_set_own _ _ _ _ CONFIG1). unfold fs1.
    apply (keys_obj_set_own _ _ _ _ DATA). }
  unfold processToolResponse. cbn [truthy negb].
  rewrite (get_own _ _ _ INPUT). cbn [bind].
  rewrite (get_own _ _ _ TYPE). cbn [bind].
  rewrite (prop_own _ _ _ DATA).
  change (truthy (VStr "pie")) with true. cbn [truthy isArray negb orb].
  change (is_string (VStr "pie") "pie") with true. cbv iota.
  cbn [elements].
  rewrite (mapM_ok _ (pie_slice (VObj cfs) (VObj es))).
  2:{ intros row I. destruct (ROWS row I) as (rfs & ->).
      eapply pie_row_ok; eauto. }
  cbn [bind assign]. fold data. fold fs1.
  rewrite (prop_own _ _ _ CONFIG1). cbn [bind assign]. fold fs2.
  rewrite (prop_own _ _ _ CC2). unfold Object_entries.
  cbn [nullish bind own_entries].
  rewrite (processed_chartConfig _ EWF), (spread_object _ WF2). reflexivity.
Qed.

Lemma prop_obj_set_other fs k k' v :
  k' <> k -> prop (VObj (obj_set k v fs)) k' = prop (VObj fs) k'.
Proof.
  intros N. cbn [prop]. rewrite lookup_obj_set_other by exact N. reflexivity.
Qed.

Lemma prop_obj_set_same fs k v : prop (VObj (obj_set k v fs)) k = v.
Proof.
  cbn [prop]. rewrite lookup_obj_set_same. reflexivity.
Qed.

Lemma not_pie t :
  In t ["bar"; "multiBar"; "line"; "area"; "stackedArea"] ->
  String.eqb t "pie" = false /\ truthy (VStr t) = true.
Proof.
  simpl. intros H.
  repeat (destruct H as [<-|H]; [split; reflexivity|]). destruct H.
Qed.

(** The normalizer on a valid invocation whose chart type is one of the
    five that are not transformed, in closed form. *)
Lemma normalize_non_pie tu t :
  valid_invocation tu = true ->
  prop (prop tu "input") "chartType" = VStr t ->
  In t ["bar"; "multiBar"; "line"; "area"; "stackedArea"] ->
  exists fs es,
    prop tu "input" = VObj fs /\ wf_keys fs = true
    /\ lookup "chartConfig" fs = Some (VObj es) /\ wf_keys es = true
    /\ (forall k v, In (k, v) es ->
          exists efs, v = VObj efs /\ wf_keys efs = true)
    /\ processToolResponse tu
       = Ok (tu, VObj (obj_set "chartConfig" (VObj (color_from 0 es)) fs)).
Proof.
  intros V T FIVE.
  destruct (valid_invocation_shape _ V) as (tfs & input & -> & _ & I & S).
  destruct S. rewrite (prop_own _ _ _ I) in T |- *.
  rewrite (prop_own _ _ _ TYPE) in T. injection T as ->.
  destruct (not_pie _ FIVE) as [PIE TRUE].
  exists fs, es. repeat (split; [solve [eauto]|]).
  eapply normalize_other; eauto.
Qed.

End Normalizer.

(** ** The properties of the Chart Data Normalizer *)


(** C6.  For a valid invocation that is not a pie chart, a second run of
    the normalizer on an invocation that carries the output of the first
    run as its input gives a [chartConfig] identical to the one of the
    first output. *)
Theorem renormalizing_keeps_chartConfig tu t :
  valid_invocation tu = true ->
  prop (prop tu "input") "chartType" = VStr t ->
  In t ["bar"; "multiBar"; "line"; "area"; "stackedArea"] ->
  exists out,
    processToolResponse tu = Ok (tu, out)
    /\ forall tu2, prop tu2 "input" = out ->
         exists out2,
           processToolResponse tu2 = Ok (tu2, out2)
           /\ prop out2 "chartConfig" = prop out "chartConfig".
Proof.
  intros V T FIVE.
  destruct (normalize_non_pie _ _ V T FIVE)
    as (fs & es & I & WF & CC & EWF & ENTRIES & RUN).
  destruct (valid_invocation_shape _ V) as (tfs & input & -> & _ & L & S).
  rewrite (prop_own _ _ _ L) in I, T. subst input.
  inversion S as [fs' cfs es' t' rows _ TYPE _ _ _ _ DATA]. subst fs'.
  clear S.
  rewrite (prop_own _ _ _ TYPE) in T. injection T as ->.
  destruct (not_pie _ FIVE) as [PIE TRUE].
  set (out := obj_set "chartConfig" (VObj (color_from 0 es)) fs) in *.
  exists (VObj out). split; [exact RUN|].
  intros tu2 I2.
  apply prop_object_inv in I2 as (tfs2 & -> & L2); try reflexivity.
  exists (VObj (obj_set "chartConfig"
                  (VObj (color_from 0 (color_from 0 es))) out)).
  split.
  - eapply normalize_other; eauto.
    + rewrite (wf_keys_same_keys _ fs); [exact WF|].
      apply (keys_obj_set_own _ _ _ _ CC).
    + unfold out. rewrite lookup_obj_set_other by discriminate. exact TYPE.
    + unfold out. rewrite lookup_obj_set_other by discriminate. exact DATA.
    + apply lookup_obj_set_same.
    + rewrite (wf_keys_same_keys _ es); [exact EWF|]. apply keys_color_from.
  - rewrite (color_from_twice _ ENTRIES). unfold out.
    rewrite !prop_obj_set_same. reflexivity.
Qed.




(** ** Which exceptions the normalizer raises *)

Lemma ote_ok {A} (a : A) : only_type_errors (Ok a).
Proof.
  intros e H. discriminate.
Qed.

Lemma ote_throw {A} what : only_type_errors (@Throw A (TypeError what)).
Proof.
  intros e [= <-]. eauto.
Qed.

Lemma ote_bind {A B} (m : result A) (k : A -> result B) :
  only_type_errors m -> (forall a, only_type_errors (k a)) ->
  only_type_errors (bind m k).
Proof.
  intros Hm Hk e. destruct m as [a|e']; simpl.
  - apply Hk.
  - intros [= <-]. apply Hm. reflexivity.
Qed.

Lemma ote_get v k : only_type_errors (get v k).
Proof.
  unfold get. destruct (nullish v); [apply ote_throw|apply ote_ok].
Qed.

Lemma ote_assign o k v : only_type_errors (assign o k v).
Proof.
  destruct o; simpl; (apply ote_throw || apply ote_ok).
Qed.

Lemma ote_Object_entries v : only_type_errors (Object_entries v).
Proof.
  unfold Object_entries. destruct (nullish v); [apply ote_throw|apply ote_ok].
Qed.

Lemma ote_to_string : forall v, only_type_errors (to_string v).
Proof.
  fix IH 1. intros v. destruct v; try apply ote_ok.
  - destruct b; apply ote_ok.
  - cbn [to_string]. induction xs as [|x r IHr]; [apply ote_ok|].
    apply ote_bind.
    + destruct (nullish x); [apply ote_ok|apply IH].
    + intros e. destruct r; [apply ote_ok|].
      apply ote_bind; [exact IHr|intros; apply ote_ok].
  - cbn [to_string]. destruct (lookup "toString" fs);
      [apply ote_throw|apply ote_ok].
Qed.

Lemma ote_mapM {A B} (f : A -> result B) (l : list A) :
  (forall x, only_type_errors (f x)) -> only_type_errors (mapM f l).
Proof.
  intros H. induction l as [|a r IH]; simpl; [apply ote_ok|].
  apply ote_bind; [apply H|]. intros y.
  apply ote_bind; [exact IH|]. intros; apply ote_ok.
Qed.

Create HintDb type_errors discriminated.
#[global] Hint Resolve ote_ok ote_throw ote_get ote_assign ote_Object_entries
  ote_to_string : type_errors.

(** Goes through a chain of binds. *)
Ltac type_errors :=
  repeat first [ solve [auto with type_errors]
               | apply ote_bind; [|intros ?]
               | apply ote_mapM; intros ? ].

Lemma ote_pie_row chartData item : only_type_errors (pie_row chartData item).
Proof.
  unfold pie_row, Object_keys. type_errors.
Qed.

#[global] Hint Resolve ote_pie_row : type_errors.

(** ** Structural validation *)

Section Validation.

Lemma truthy_not_nullish v : truthy v = true -> nullish v = false.
Proof.
  destruct v; simpl; congruence.
Qed.

Lemma array_is_truthy v : isArray v = true -> truthy v = true.
Proof.
  destruct v; simpl; congruence.
Qed.

(** What follows the validation raises type errors only. *)
Lemma after_validation_type_errors tu chartData chartType :
  only_type_errors
    (st <- (if is_string chartType "pie" then
              data <- mapM (pie_row chartData)
                        (elements (prop chartData "data")) ;;
              chartData <- assign chartData "data" (VArr data) ;;
              config <- assign (prop chartData "config") "xAxisKey"
                          (VStr "segment") ;;
              chartData <- assign chartData "config" config ;;
              toolUseContent <- assign tu "input" chartData ;;
              Ok (toolUseContent, chartData)
            else Ok (tu, chartData)) ;;
     let (toolUseContent, chartData) := st : value * value in
     es <- Object_entries (prop chartData "chartConfig") ;;
     let processedChartConfig := reduce colorize es [] in
     Ok (toolUseContent,
         VObj (obj_set "chartConfig" (VObj processedChartConfig)
                 (spread_into [] chartData)))).
Proof.
  apply ote_bind.
  - destruct (is_string chartType "pie"); type_errors.
  - intros [tu' cd]. type_errors.
Qed.

End Validation.

(** C2, as the code has it.  For a tool invocation with an input that is
    neither [null] nor [undefined], the normalizer raises the chart-data
    error exactly when [input.chartType] is absent or falsy, or
    [input.data] is absent or not an array.  The chart type is not compared
    with the six known values. *)
Theorem validation_fails_iff_chartType_falsy_or_data_not_array tu :
  truthy tu = true ->
  nullish (prop tu "input") = false ->
  let input := prop tu "input" in
  processToolResponse tu = Throw chart_error
  <-> truthy (prop input "chartType") = false
      \/ isArray (prop input "data") = false.
Proof.
  intros T N input. subst input. unfold processToolResponse.
  rewrite T. cbn [negb]. unfold get at 1.
  rewrite (truthy_not_nullish _ T). cbn [bind].
  unfold get at 1. rewrite N. cbn [bind].
  destruct (truthy (prop (prop tu "input") "chartType")) eqn:C; cbn [negb orb].
  2:{ split; [auto|reflexivity]. }
  destruct (isArray (prop (prop tu "input") "data")) eqn:A.
  - rewrite (array_is_truthy _ A). cbn [negb orb]. split.
    + intros H. apply after_validation_type_errors in H as (what & H).
      discriminate H.
    + intros [H|H]; discriminate H.
  - rewrite orb_true_r. split; [auto|reflexivity].
Qed.

(** ** What the normalizer leaves alone *)

Section Frame.

(** Outside the pie branch the invocation is not written to. *)
Lemma processToolResponse_frame tu tu' out :
  is_string (prop (prop tu "input") "chartType") "pie" = false ->
  processToolResponse tu = Ok (tu', out) -> tu' = tu.
Proof.
  intros P. unfold processToolResponse.
  destruct (truthy tu) eqn:T; cbn [negb]; [|congruence].
  unfold get at 1. rewrite (truthy_not_nullish _ T). cbn [bind].
  unfold get at 1. destruct (nullish (prop tu "input")); [discriminate|].
  cbn [bind]. match goal with |- (if ?c then _ else _) = _ -> _ =>
    destruct c; [discriminate|] end.
  rewrite P. cbn [bind].
  destruct (Object_entries (prop (prop tu "input") "chartConfig"));
    cbn [bind]; congruence.
Qed.

Lemma finish_toolUse response r :
  finish (Reply response) = Ok r ->
  let toolUseContent :=
    find_type "tool_use" (elements (prop response "content")) in
  exists blocks tu' out,
    prop response "content" = VArr blocks
    /\ (if truthy toolUseContent then processToolResponse toolUseContent
        else Ok (toolUseContent, VNull)) = Ok (tu', out)
    /\ prop (body r) "toolUse" = tu'
    /\ prop (body r) "chartData" = out.
Proof.
  cbn [finish]. unfold get at 1.
  destruct (nullish response); [discriminate|]. cbn [bind].
  destruct (prop response "content") as [| | | | |blocks| |];
    try discriminate.
  cbn [isArray bind elements].
  destruct (mapM _ blocks); [|discriminate].
  cbn [bind]. cbv zeta. intros H.
  destruct (if truthy _ then _ else _) as [[tu' out]|]; [|discriminate].
  cbn [bind] in H. injection H as <-. exists blocks, tu', out.
  repeat split; reflexivity.
Qed.

Lemma find_type_In type (blocks : list value) :
  find_type type blocks = VUndef \/ In (find_type type blocks) blocks.
Proof.
  unfold find_type.
  destruct (find _ blocks) eqn:F; [|left; reflexivity].
  right. apply find_some in F. tauto.
Qed.

(** The invocation found in a parsed reply is a parsed document. *)
Lemma json_find_type response blocks type :
  json_value response = true ->
  prop response "content" = VArr blocks ->
  truthy (find_type type blocks) = true ->
  json_value (find_type type blocks) = true.
Proof.
  intros J C T.
  apply prop_named_inv in C as (rfs & -> & L); try reflexivity;
    [|discriminate].
  pose proof (json_object_lookup _ _ _ J L) as JB. simpl in JB.
  rewrite forallb_forall in JB.
  destruct (find_type_In type blocks) as [U|I]; [|auto].
  rewrite U in T. discriminate T.
Qed.

End Frame.

(** C3, as the code has it.  When the chart type of the invocation the
    reply carries is not pie, the normalizer does not write to the
    invocation, and the [toolUse] of the response is the invocation as it
    was received.  When the invocation is a valid pie chart, the rows of the
    input of [toolUse] are the transformed rows the chart carries, and the
    [xAxisKey] of its config is [segment]. *)
Theorem toolUse_after_normalization response r :
  finish (Reply response) = Ok r ->
  let toolUseContent :=
    find_type "tool_use" (elements (prop response "content")) in
  let toolUse := prop (body r) "toolUse" in
  (is_string (prop (prop toolUseContent "input") "chartType") "pie" = false ->
   (forall tu' out,
      processToolResponse toolUseContent = Ok (tu', out) ->
      tu' = toolUseContent)
   /\ toolUse = toolUseContent)
  /\ (valid_invocation toolUseContent = true ->
      prop (prop toolUseContent "input") "chartType" = VStr "pie" ->
      prop (prop toolUse "input") "data"
      = prop (prop (body r) "chartData") "data"
      /\ prop (prop (prop toolUse "input") "config") "xAxisKey"
         = VStr "segment").
Proof.
  intros F toolUseContent toolUse. subst toolUse.
  destruct (finish_toolUse _ _ F) as (blocks & tu' & out & _ & RUN & TU & CD).
  fold toolUseContent in RUN. rewrite TU, CD. clear TU CD F. split.
  - intros P. split.
    + intros tu2 out2. apply processToolResponse_frame. exact P.
    + destruct (truthy toolUseContent).
      * eapply processToolResponse_frame; eauto.
      * congruence.
  - intros V T.
    destruct (valid_invocation_shape _ V) as (tfs & inp & E & _ & I & S).
    rewrite E in *. cbn [truthy] in RUN. rewrite (prop_own _ _ _ I) in T.
    destruct S. rewrite (prop_own _ _ _ TYPE) in T. injection T as ->.
    rewrite (normalize_pie tfs fs cfs es rows WF I TYPE CONFIG XAXIS DATA
               ROWS CHARTCONFIG ENTRIES_WF) in RUN.
    injection RUN as <- <-. rewrite !prop_obj_set_same. split.
    + rewrite !(prop_obj_set_other _ "chartConfig") by discriminate.
      reflexivity.
    + reflexivity.
Qed.

(** ** The data of a returned chart *)

Section ReturnedData.

Lemma assign_config_own fs1 config' :
  assign (prop (VObj fs1) "config") "xAxisKey" (VStr "segment") = Ok config' ->
  exists config, lookup "config" fs1 = Some config.
Proof.
  intros H.
  destruct (prop_named_inv (VObj fs1) "config" (prop (VObj fs1) "config"))
    as (tfs & [= <-] & L); try reflexivity; [|eauto].
  intros U. rewrite U in H. discriminate H.
Qed.

(** A chart the normalizer returns for a parsed invocation carries the
    rows of the invocation, or the pie rows made of them. *)
Lemma returned_data tu tu' out :
  json_value tu = true ->
  processToolResponse tu = Ok (tu', out) ->
  out <> VNull ->
  exists fs rows data,
    prop tu "input" = VObj fs
    /\ lookup "data" fs = Some (VArr rows)
    /\ prop out "data" = VArr data
    /\ List.length data = List.length rows.
Proof.
  intros J. unfold processToolResponse.
  destruct (truthy tu) eqn:T; cbn [negb]; [|congruence].
  unfold get at 1. rewrite (truthy_not_nullish _ T). cbn [bind].
  unfold get at 1. destruct (nullish (prop tu "input")) eqn:N; [discriminate|].
  cbn [bind].
  destruct (truthy (prop (prop tu "input") "chartType")); [|discriminate].
  destruct (isArray (prop (prop tu "input") "data")) eqn:A;
    [|rewrite orb_true_r; discriminate].
  rewrite (array_is_truthy _ A). cbn [negb orb].
  destruct (prop (prop tu "input") "data") as [| | | | |rows| |] eqn:D;
    try discriminate A. clear A.
  apply prop_named_inv in D as (fs & I & D); try reflexivity; [|discriminate].
  rewrite I in *. clear N.
  apply prop_object_inv in I as (tfs & -> & I); try reflexivity.
  pose proof (json_object_wf _ (json_object_lookup _ _ _ J I)) as WF.
  destruct (is_string _ "pie"); cbn [bind elements].
  - destruct (mapM (pie_row (VObj fs)) rows) as [data|] eqn:M;
      [|discriminate]. cbn [bind assign].
    set (fs1 := obj_set "data" (VArr data) fs).
    destruct (assign (prop (VObj fs1) "config") "xAxisKey" (VStr "segment"))
      as [config'|] eqn:AC; [|discriminate].
    destruct (assign_config_own _ _ AC) as (config & C).
    cbn [bind assign]. set (fs2 := obj_set "config" config' fs1).
    destruct (Object_entries (prop (VObj fs2) "chartConfig")) as [es|];
      [|discriminate].
    cbn [bind]. intros [= _ <-] _.
    assert (WF2 : wf_keys fs2 = true).
    { rewrite (wf_keys_same_keys _ fs); [exact WF|]. unfold fs2.
      rewrite (keys_obj_set_own _ _ _ _ C). unfold fs1.
      apply (keys_obj_set_own _ _ _ _ D). }
    exists fs, rows, data. split; [reflexivity|]. split; [exact D|]. split.
    + rewrite (spread_object _ WF2). unfold fs2, fs1.
      rewrite !prop_obj_set_other by discriminate. apply prop_obj_set_same.
    + clear - M. revert data M.
      induction rows as [|x r IH]; simpl; intros data M.
      * injection M as <-. reflexivity.
      * destruct (pie_row (VObj fs) x); [|discriminate]. simpl in M.
        destruct (mapM (pie_row (VObj fs)) r); [|discriminate]. simpl in M.
        injection M as <-. simpl. f_equal. apply IH. reflexivity.
  - destruct (Object_entries (prop (VObj fs) "chartConfig")) as [es|];
      [|discriminate].
    cbn [bind]. intros [= _ <-] _.
    exists fs, rows, rows. split; [reflexivity|]. split; [exact D|].
    split; [|reflexivity].
    rewrite (spread_object _ WF), prop_obj_set_other by discriminate.
    apply (prop_own _ _ _ D).
Qed.

End ReturnedData.

(** C9, as the code has it.  The data of every chart the endpoint returns
    for a parsed reply is an array with as many rows as the data of the
    invocation, and so with none when that array is empty. *)
Theorem returned_chart_data_is_an_array response r :
  json_value response = true ->
  finish (Reply response) = Ok r ->
  prop (body r) "chartData" <> VNull ->
  let toolUseContent :=
    find_type "tool_use" (elements (prop response "content")) in
  exists data,
    prop (prop (body r) "chartData") "data" = VArr data
    /\ List.length data
       = List.length (elements (prop (prop toolUseContent "input") "data")).
Proof.
  intros J F NN toolUseContent.
  destruct (finish_toolUse _ _ F) as (blocks & tu' & out & C & RUN & _ & CD).
  fold toolUseContent in RUN. rewrite CD in *.
  destruct (truthy toolUseContent) eqn:T; [|congruence].
  assert (JT : json_value toolUseContent = true).
  { unfold toolUseContent. rewrite C. cbn [elements].
    eapply json_find_type; eauto.
    unfold toolUseContent in T. rewrite C in T. exact T. }
  destruct (returned_data _ _ _ JT RUN NN)
    as (fs & rows & data & I & D & O & L).
  exists data. split; [exact O|].
  rewrite I, (prop_own _ _ _ D). exact L.
Qed.

(** ** The endpoint before the service is called *)


Section InputNormalizer.

(** The message the Input Normalizer makes of a message it does not
    rewrite. *)
Lemma outbound_message_ok msg :
  nullish msg = false ->
  outbound_message msg = Ok (copied msg).
Proof.
  intros N. unfold outbound_message, get. rewrite N. reflexivity.
Qed.

Lemma outbound_message_inv msg out :
  outbound_message msg = Ok out -> out = copied msg.
Proof.
  unfold outbound_message, get. destruct (nullish msg); [discriminate|].
  cbn [bind]. intros [= <-]. reflexivity.
Qed.

Lemma mapM_nth {A B} (f : A -> result B) (l : list A) (ys : list B) :
  mapM f l = Ok ys ->
  List.length ys = List.length l
  /\ forall i x, nth_error l i = Some x ->
       exists y, nth_error ys i = Some y /\ f x = Ok y.
Proof.
  revert ys. induction l as [|a r IH]; simpl; intros ys H.
  - injection H as <-. split; [reflexivity|]. intros [|i] x; discriminate.
  - destruct (f a) as [b|] eqn:F; [|discriminate]. simpl in H.
    destruct (mapM f r) as [bs|]; [|discriminate]. simpl in H.
    injection H as <-. destruct (IH bs eq_refl) as [L N].
    split; [simpl; congruence|].
    intros [|i] x; simpl.
    + intros [= <-]. eauto.
    + apply N.
Qed.

Lemma last_set_last (l : list value) v : last (set_last l v) VUndef = v.
Proof.
  unfold set_last. apply last_last.
Qed.

Lemma nth_set_last (l : list value) v i :
  i + 1 < List.length l -> nth_error (set_last l v) i = nth_error l i.
Proof.
  unfold set_last. revert i. induction l as [|a r IH]; intros i H.
  - simpl in H. lia.
  - destruct r as [|b r'].
    + simpl in H. lia.
    + destruct i as [|i]; [reflexivity|].
      change (nth_error (removelast (b :: r') ++ [v]) i
              = nth_error (b :: r') i).
      apply IH. simpl in *. lia.
Qed.

Lemma length_set_last (l : list value) v :
  l <> [] -> List.length (set_last l v) = List.length l.
Proof.
  intros N. unfold set_last. destruct (exists_last N) as (l' & a & ->).
  rewrite removelast_last, !length_app. reflexivity.
Qed.

Lemma last_content_nonempty (msgs : list value) c :
  last_content msgs = Ok c -> msgs <> [].
Proof.
  intros H ->. discriminate H.
Qed.

(** What the inner [try] does to the outbound messages when it does not
    throw. *)
Lemma attach_inv fileData (msgs bm bm' : list value) :
  attach fileData msgs bm = Ok bm' ->
  List.length bm = List.length msgs ->
  let applies :=
    truthy (prop fileData "isText")
    || match prop fileData "mediaType" with
       | VStr s => String.prefix "image/" s
       | _ => false
       end in
  (applies = true ->
   bm <> [] /\ exists blocks, bm' = set_last bm (user_message blocks))
  /\ (applies = false -> bm' = bm).
Proof.
  intros H L applies. subst applies. unfold attach in H.
  assert (NE : forall c, last_content msgs = Ok c -> bm <> []).
  { intros c C ->. apply last_content_nonempty in C.
    destruct msgs; [apply C; reflexivity|discriminate L]. }
  destruct (truthy (prop fileData "isText")); cbn [orb].
  - destruct (to_string (prop fileData "base64")); [|discriminate].
    cbn [bind] in H. destruct (atob a); [|discriminate].
    cbn [bind] in H. destruct (decode_utf8 a0); [|discriminate].
    cbn [bind] in H.
    destruct (to_string (prop fileData "fileName")); [|discriminate].
    cbn [bind] in H.
    destruct (last_content msgs) eqn:C; [|discriminate].
    cbn [bind] in H. injection H as <-.
    split; [|discriminate]. intros _. split; [eauto|eauto].
  - destruct (prop fileData "mediaType"); try discriminate H.
    cbn [startsWith bind] in H. destruct (String.prefix "image/" s).
    + destruct (last_content msgs) eqn:C; [|discriminate].
      cbn [bind] in H. injection H as <-.
      split; [|discriminate]. intros _. split; [eauto|eauto].
    + injection H as <-. split; [discriminate|reflexivity].
Qed.

(** When the endpoint calls the service, the outbound messages are the
    copies of the messages, the last of which the Input Normalizer may
    have replaced by a user message. *)
Lemma POST_Send_inv request model payload k :
  POST request = Send model payload k ->
  exists bm,
    mapM outbound_message (elements (prop request "messages")) = Ok bm
    /\ ((rewrites (prop request "fileData") = true
         /\ bm <> []
         /\ exists blocks,
              messages payload = set_last bm (user_message blocks))
        \/ (rewrites (prop request "fileData") = false
            /\ messages payload = bm)).
Proof.
  unfold POST. destruct (prepare request) as [[r|[m p]]|e] eqn:P;
    try discriminate; [|destruct (on_error e); discriminate].
  intros [= -> -> _]. revert P. unfold prepare, rewrites.
  destruct (nullish request); [discriminate|].
  destruct (_ || _); [discriminate|].
  destruct (negb (truthy (prop request "model"))); [discriminate|].
  destruct (mapM outbound_message _) as [bm|] eqn:M; [|discriminate].
  cbn [bind]. destruct (mapM_nth _ _ _ M) as [L _].
  destruct (truthy (prop request "fileData")); cbn [andb].
  - destruct (negb (truthy _)); [discriminate|].
    destruct (attach _ _ bm) as [bm'|] eqn:A; [|discriminate].
    intros [= E]. subst payload. cbn [messages bedrockPayload].
    exists bm. split; [reflexivity|].
    destruct (attach_inv _ _ _ _ A L) as [Y N].
    destruct (_ || _).
    + left. destruct (Y eq_refl) as (NE & blocks & ->).
      split; [reflexivity|]. split; [exact NE|]. exists blocks. reflexivity.
    + right. rewrite (N eq_refl). split; reflexivity.
  - intros [= E]. subst payload. cbn [messages bedrockPayload].
    exists bm. split; [reflexivity|]. right. split; reflexivity.
Qed.

End InputNormalizer.

(** C8, as the code has it.  For a request with a text attachment whose
    payload is a string: when the payload is not empty and decodes to the
    text [text], with file name [fileName], the service is called and the
    last outbound message is a user message of exactly two text blocks:
    "File contents of [fileName]:", an empty line and [text]; then the
    content of the original last message.  The earlier messages are
    copied.  When the payload is empty, as the payload of an empty file is,
    the endpoint answers 400 with "No file data" and sends nothing. *)
Theorem text_attachment_rewrites_last_message
  request fileData encoded fileName earlier lastMessage :
  prop request "messages" = VArr (earlier ++ [lastMessage]) ->
  Forall (fun msg => nullish msg = false) (earlier ++ [lastMessage]) ->
  truthy (prop request "model") = true ->
  prop request "fileData" = fileData ->
  truthy (prop fileData "isText") = true ->
  prop fileData "base64" = VStr encoded ->
  prop fileData "fileName" = VStr fileName ->
  (encoded <> EmptyString ->
   forall text,
     atob encoded = Ok text ->
     well_formed_utf8 text = true ->
     exists payload,
       POST request = Send (prop request "model") payload conclude
       /\ messages payload
          = (map copied earlier
             ++ [VObj
                   [("role", VStr "user");
                    ("content",
                     VArr
                       [VObj [("type", VStr "text");
                              ("text",
                               VStr ("File contents of " ++ fileName ++ ":"
                                     ++ LF ++ LF ++ text))];
                        VObj [("type", VStr "text");
                              ("text", prop lastMessage "content")]])]])%list)
  /\ (encoded = EmptyString ->
      POST request
      = Respond {| status := VNum 400;
                   body := VObj [("error", VStr "No file data")];
                   headers := [] |}).
Proof.
  intros MSGS ALL MODEL FD TEXT B64 NAME.
  assert (NR : nullish request = false)
    by (destruct request; try reflexivity; discriminate MSGS).
  assert (TF : truthy fileData = true).
  { destruct (prop_named_inv fileData "isText" (prop fileData "isText"))
      as (ffs & -> & _); try reflexivity.
    intros U. rewrite U in TEXT. discriminate TEXT. }
  assert (NL : nullish lastMessage = false).
  { rewrite Forall_forall in ALL. apply ALL. apply in_or_app. right.
    left. reflexivity. }
  assert (COPIES : mapM outbound_message (earlier ++ [lastMessage])
                   = Ok (map copied (earlier ++ [lastMessage]))).
  { apply (mapM_ok outbound_message copied).
    intros x I. apply outbound_message_ok.
    rewrite Forall_forall in ALL. auto. }
  split.
  - intros NE text ATOB UTF.
    assert (B64T : truthy (VStr encoded) = true).
    { cbn [truthy]. apply negb_true_iff, String.eqb_neq. exact NE. }
    eexists. unfold POST, prepare. rewrite NR, MSGS, MODEL, FD.
    cbn [truthy isArray negb orb elements]. rewrite COPIES.
    cbn [bind]. rewrite TF, B64, B64T. cbn [negb].
    unfold attach. rewrite TEXT, B64, NAME. cbn [to_string bind].
    rewrite ATOB. cbn [bind]. unfold decode_utf8. rewrite UTF. cbn [bind].
    unfold last_content. rewrite last_last. unfold get. rewrite NL.
    cbn [bind]. split; [reflexivity|]. cbn [messages bedrockPayload].
    unfold set_last. rewrite map_app. cbn [map]. rewrite removelast_last.
    reflexivity.
  - intros ->. unfold POST, prepare. rewrite NR, MSGS, MODEL, FD.
    cbn [truthy isArray negb orb elements]. rewrite COPIES.
    cbn [bind]. rewrite TF, B64. reflexivity.
Qed.

(** C10.  When the endpoint calls the service, the outbound messages are
    as many as the messages of the request; if a file attachment is
    applied (a text file, or a media type that starts with "image/") the
    role of the last outbound message is "user", whatever the role of the
    original last message; every message that is not rewritten keeps its
    role. *)
Theorem rewritten_last_message_has_role_user request model payload k :
  POST request = Send model payload k ->
  let fileData := prop request "fileData" in
  let original := elements (prop request "messages") in
  List.length (messages payload) = List.length original
  /\ (rewrites fileData = true ->
      prop (last (messages payload) VUndef) "role" = VStr "user")
  /\ (forall i msg,
        nth_error original i = Some msg ->
        rewrites fileData = false \/ i + 1 < List.length original ->
        exists out,
          nth_error (messages payload) i = Some out
          /\ prop out "role" = prop msg "role").
Proof.
  intros S fileData original. subst fileData original.
  destruct (POST_Send_inv _ _ _ _ S) as (bm & M & CASES).
  destruct (mapM_nth _ _ _ M) as [L N].
  assert (COPY : forall i msg,
             nth_error (elements (prop request "messages")) i = Some msg ->
             exists out, nth_error bm i = Some out
                         /\ prop out "role" = prop msg "role").
  { intros i msg I. destruct (N i msg I) as (out & O & E).
    apply outbound_message_inv in E. subst out. eauto. }
  destruct CASES as [(R & NE & blocks & P)|(R & P)]; rewrite P, R.
  - split; [rewrite length_set_last by exact NE; exact L|].
    split; [intros _; rewrite last_set_last; reflexivity|].
    intros i msg I [F|LT]; [discriminate F|].
    rewrite nth_set_last by lia. auto.
  - split; [exact L|]. split; [discriminate|]. intros i msg I _. auto.
Qed.

(** ** The properties at the sample documents *)

(** C1.  What the endpoint does with an invocation of the price-lookup
    tool: the invocation conforms to the schema the registry declares for
    [get_stock_price], the normalizer validates its input as chart data, and
    the endpoint answers with the error response of status 500 instead of a
    response that carries the invocation in [toolUse]. *)
Theorem price_lookup_invocation_is_answered_with_an_error :
  conforms (input_schema get_stock_price) (prop example_price "input") = true
  /\ processToolResponse example_price = Throw chart_error
  /\ run example_question (Reply (reply_with [example_price]))
     = Ok {| status := VNum 500;
             body := VObj [("error", VStr "Bedrock API Error");
                           ("details", VStr "Invalid chart data structure");
                           ("code", VNum 500)];
             headers := [] |}.
Proof.
  repeat split; reflexivity.
Qed.

(** C2 fails on the code: the design document rejects the chart type
    "scatter", the normalizer accepts it. *)
Lemma scatter_passes_validation :
  ~ (processToolResponse example_scatter = Throw chart_error
     <-> spec_structurally_valid (prop example_scatter "input") = false).
Proof.
  intros [_ H]. specialize (H eq_refl). discriminate H.
Qed.

Lemma validation_at_scatter :
  truthy example_scatter = true
  /\ nullish (prop example_scatter "input") = false
  /\ (processToolResponse example_scatter = Throw chart_error
      <-> truthy (prop (prop example_scatter "input") "chartType") = false
          \/ isArray (prop (prop example_scatter "input") "data") = false).
Proof.
  split; [reflexivity|]. split; [reflexivity|].
  exact (validation_fails_iff_chartType_falsy_or_data_not_array
           example_scatter eq_refl eq_refl).
Defined.

(** C3 fails on the code: after a pie chart is normalized, the rows and the
    [xAxisKey] of the invocation are the transformed ones, and so are those
    of the [toolUse] the caller receives. *)
Lemma pie_invocation_is_mutated :
  exists tu' out r,
    processToolResponse example_pie = Ok (tu', out)
    /\ prop (prop tu' "input") "data"
       <> prop (prop example_pie "input") "data"
    /\ prop (prop (prop tu' "input") "config") "xAxisKey"
       <> prop (prop (prop example_pie "input") "config") "xAxisKey"
    /\ finish (Reply (reply_with [example_pie])) = Ok r
    /\ prop (body r) "toolUse" = tu'
    /\ prop (body r) "toolUse" <> example_pie.
Proof.
  do 3 eexists. split; [reflexivity|].
  split; [discriminate|]. split; [discriminate|].
  split; [reflexivity|]. split; [reflexivity|]. discriminate.
Qed.

Lemma bar_invocation_is_returned_as_received :
  exists r,
    finish (Reply (reply_with [example_bar])) = Ok r
    /\ conclude (Reply (reply_with [example_bar])) = Ok r
    /\ prop (body r) "toolUse" = example_bar.
Proof.
  eexists. split; [reflexivity|]. split; [reflexivity|].
  exact (proj2 (proj1 (toolUse_after_normalization
                         (reply_with [example_bar]) _ eq_refl)
                  eq_refl)).
Defined.





Lemma bar_example_renormalized :
  valid_invocation example_bar = true
  /\ exists out,
       processToolResponse example_bar = Ok (example_bar, out)
       /\ exists out2,
            processToolResponse
              (tool_use "toolu_06" "generate_graph_data" out)
            = Ok (tool_use "toolu_06" "generate_graph_data" out, out2)
            /\ prop out2 "chartConfig" = prop out "chartConfig".
Proof.
  split; [reflexivity|].
  destruct (renormalizing_keeps_chartConfig example_bar "multiBar"
              eq_refl eq_refl (or_intror (or_introl eq_refl)))
    as (out & RUN & AGAIN).
  exists out. split; [exact RUN|].
  exact (AGAIN (tool_use "toolu_06" "generate_graph_data" out) eq_refl).
Defined.



(** C8 fails on the code: the payload of an empty text file is the empty
    string, which decodes to the empty text; the request is answered 400
    and nothing is sent. *)
Lemma empty_text_attachment_is_not_sent :
  prop (request_with [question] empty_file) "fileData" = empty_file
  /\ truthy (prop empty_file "isText") = true
  /\ prop empty_file "base64" = VStr EmptyString
  /\ atob EmptyString = Ok EmptyString
  /\ well_formed_utf8 EmptyString = true
  /\ POST (request_with [question] empty_file)
     = Respond {| status := VNum 400;
                  body := VObj [("error", VStr "No file data")];
                  headers := [] |}
  /\ forall model payload k,
       POST (request_with [question] empty_file) <> Send model payload k.
Proof.
  repeat (split; [reflexivity|]). discriminate.
Qed.

Lemma hello_attachment :
  exists payload,
    POST example_attachment
    = Send (VStr "anthropic.claude-3-haiku-20240307-v1:0") payload conclude
    /\ messages payload
       = [VObj [("role", VStr "user"); ("content", VStr "hi")];
          VObj [("role", VStr "user");
                ("content",
                 VArr [VObj [("type", VStr "text");
                             ("text", VStr "File contents of a.txt:

hello")];
                       VObj [("type", VStr "text");
                             ("text", VStr "summarize")]])]].
Proof.
  exact (proj1 (text_attachment_rewrites_last_message example_attachment
                  (prop example_attachment "fileData") "aGVsbG8=" "a.txt"
                  [VObj [("role", str "user"); ("content", str "hi")]]
                  (VObj [("role", str "assistant");
                         ("content", str "summarize")])
                  eq_refl ltac:(repeat constructor) eq_refl eq_refl eq_refl
                  eq_refl eq_refl)
           ltac:(discriminate) "hello" eq_refl eq_refl).
Defined.

(** C9 fails on the code: a bar chart without rows is returned as a
    chart. *)
Lemma empty_data_yields_a_chart :
  exists tu' out r,
    processToolResponse example_empty = Ok (tu', out)
    /\ prop (prop example_empty "input") "data" = VArr []
    /\ prop out "data" = VArr []
    /\ finish (Reply (reply_with [example_empty])) = Ok r
    /\ status r = VNum 200
    /\ prop (body r) "chartData" = out
    /\ out <> VNull.
Proof.
  do 3 eexists. repeat (split; [reflexivity|]). discriminate.
Qed.

Lemma empty_example_data :
  json_value (reply_with [example_empty]) = true
  /\ exists r,
       finish (Reply (reply_with [example_empty])) = Ok r
       /\ conclude (Reply (reply_with [example_empty])) = Ok r
       /\ exists data,
            prop (prop (body r) "chartData") "data" = VArr data
            /\ List.length data = 0.
Proof.
  split; [reflexivity|]. eexists. split; [reflexivity|].
  split; [reflexivity|].
  apply (returned_chart_data_is_an_array (reply_with [example_empty]) _
           eq_refl eq_refl).
  discriminate.
Defined.

Lemma attachment_on_assistant_turn :
  POST example_attachment
  = Send (str "anthropic.claude-3-haiku-20240307-v1:0")
      (bedrockPayload example_outbound) conclude
  /\ rewrites (prop example_attachment "fileData") = true
  /\ prop (last (elements (prop example_attachment "messages")) VUndef)
       "role" = VStr "assistant"
  /\ prop (last (messages (bedrockPayload example_outbound)) VUndef) "role"
     = VStr "user".
Proof.
  split; [reflexivity|]. split; [reflexivity|]. split; [reflexivity|].
  exact (proj1 (proj2 (rewritten_last_message_has_role_user
                         example_attachment
                         (str "anthropic.claude-3-haiku-20240307-v1:0")
                         (bedrockPayload example_outbound) conclude eq_refl))
           eq_refl).
Defined.

(** * Further properties of the route *)

(** ** Base64: [btoa], [atob] and [isValidBase64] *)

Section Base64.

Lemma string_ind3 (P : string -> Prop) :
  P EmptyString ->
  (forall a, P (String a EmptyString)) ->
  (forall a b, P (String a (String b EmptyString))) ->
  (forall a b c r, P r -> P (String a (String b (String c r)))) ->
  forall s, P s.
Proof.
  intros H0 H1 H2 H3 s.
  assert (H : P s /\ (forall a, P (String a s))
              /\ (forall a b, P (String a (String b s)))).
  { induction s as [|c r (IH0 & IH1 & IH2)]; [auto|].
    split; [apply IH1|]. split; [intros a; apply IH2|].
    intros a b. apply H3, IH0. }
  apply H.
Qed.

Lemma digit_code n :
  let c := N_of_ascii (base64_digit n) in
  ((65 <= c <= 90 /\ c = n + 65) \/ (97 <= c <= 122 /\ c = n + 71)
   \/ (48 <= c <= 57 /\ c + 4 = n) \/ (c = 43 /\ n = 62)
   \/ (c = 47 /\ 63 <= n))%N.
Proof.
  unfold base64_digit.
  destruct (N.ltb_spec n 26); [|destruct (N.ltb_spec n 52);
    [|destruct (N.ltb_spec n 62); [|destruct (N.eqb_spec n 62)]]];
    cbv zeta; rewrite N_ascii_embedding by lia; lia.
Qed.

Lemma sextet_digit n : (n < 64)%N -> sextet (base64_digit n) = Some n.
Proof.
  intros B. pose proof (digit_code n) as C. cbv zeta in C.
  unfold sextet. cbv zeta.
  set (c := N_of_ascii (base64_digit n)) in *.
  destruct C as [[R E]|[[R E]|[[R E]|[[E F]|[E F]]]]].
  - replace ((65 <=? c) && (c <=? 90))%N with true
      by (symmetry; apply andb_true_iff; split; apply N.leb_le; lia).
    f_equal. lia.
  - replace ((65 <=? c) && (c <=? 90))%N with false
      by (symmetry; apply andb_false_iff; right; apply N.leb_gt; lia).
    replace ((97 <=? c) && (c <=? 122))%N with true
      by (symmetry; apply andb_true_iff; split; apply N.leb_le; lia).
    f_equal. lia.
  - replace ((65 <=? c) && (c <=? 90))%N with false
      by (symmetry; apply andb_false_iff; left; apply N.leb_gt; lia).
    replace ((97 <=? c) && (c <=? 122))%N with false
      by (symmetry; apply andb_false_iff; left; apply N.leb_gt; lia).
    replace ((48 <=? c) && (c <=? 57))%N with true
      by (symmetry; apply andb_true_iff; split; apply N.leb_le; lia).
    f_equal. lia.
  - rewrite E. subst n. reflexivity.
  - rewrite E. simpl. f_equal. lia.
Qed.

Lemma digit_not_whitespace n : ascii_whitespace (base64_digit n) = false.
Proof.
  pose proof (digit_code n) as C. cbv zeta in C.
  unfold ascii_whitespace. cbv zeta.
  set (c := N_of_ascii (base64_digit n)) in *.
  repeat rewrite orb_false_iff. repeat split; apply N.eqb_neq; lia.
Qed.

Lemma digit_not_pad n : Ascii.eqb (base64_digit n) "="%char = false.
Proof.
  apply Ascii.eqb_neq. intros E.
  pose proof (digit_code n) as C. cbv zeta in C. rewrite E in C.
  simpl in C. lia.
Qed.

Lemma string_filter_app f a b :
  string_filter f (a ++ b) = string_filter f a ++ string_filter f b.
Proof.
  induction a as [|c r IH]; simpl; [reflexivity|].
  destruct (f c); simpl; rewrite IH; reflexivity.
Qed.

Lemma filter_unpadded s :
  string_filter (fun c => negb (ascii_whitespace c)) (unpadded s)
  = unpadded s.
Proof.
  induction s as [|a|a b|a b c r IH] using string_ind3;
    cbn [unpadded string_filter]; cbv zeta;
    rewrite ?digit_not_whitespace; cbn [negb string_filter];
    rewrite ?digit_not_whitespace; cbn [negb string_filter];
    rewrite ?IH; reflexivity.
Qed.

Lemma padding_step a b c r :
  padding (String a (String b (String c r))) = padding r.
Proof.
  unfold padding. cbn [String.length].
  replace (S (S (S (String.length r)))) with (String.length r + 1 * 3)
    by lia.
  rewrite Nat.Div0.mod_add. reflexivity.
Qed.

Lemma btoa_step a b c r :
  btoa (String a (String b (String c r)))
  = String (base64_digit (N_of_ascii a / 4))
      (String (base64_digit (N_of_ascii a mod 4 * 16 + N_of_ascii b / 16))
         (String (base64_digit (N_of_ascii b mod 16 * 4 + N_of_ascii c / 64))
            (String (base64_digit (N_of_ascii c mod 64)) (btoa r)))).
Proof.
  unfold btoa. rewrite padding_step. reflexivity.
Qed.

Lemma length_btoa s : String.length (btoa s) mod 4 = 0.
Proof.
  induction s as [|a|a b|a b c r IH] using string_ind3;
    try reflexivity.
  rewrite btoa_step. cbn [String.length].
  replace (S (S (S (S (String.length (btoa r))))))
    with (String.length (btoa r) + 1 * 4) by lia.
  rewrite Nat.Div0.mod_add. exact IH.
Qed.

Lemma strip_padding_group x0 x1 x2 x3 t :
  String.length t mod 4 = 0 -> t <> EmptyString ->
  strip_padding (String x0 (String x1 (String x2 (String x3 t))))
  = String x0 (String x1 (String x2 (String x3 (strip_padding t)))).
Proof.
  intros M NE.
  destruct t as [|y0 [|y1 t2]]; [congruence|discriminate M|].
  unfold strip_padding. cbn [String.length] in *.
  set (l := String.length t2) in *.
  replace (S (S (S (S (S (S l)))))) with (S (S l) + 1 * 4) at 1 by lia.
  rewrite Nat.Div0.mod_add, M. cbn [Nat.eqb].
  cbn [Nat.sub]. rewrite !Nat.sub_0_r. cbn [substring].
  destruct (String.eqb _ "=="); [reflexivity|].
  destruct (String.eqb _ "="); reflexivity.
Qed.

Lemma btoa_nonempty s : s <> EmptyString -> btoa s <> EmptyString.
Proof.
  destruct s as [|a [|b [|c r]]]; [congruence| | |]; intros _.
  - discriminate.
  - discriminate.
  - rewrite btoa_step. discriminate.
Qed.

Lemma strip_padding_one x0 x1 x2 :
  Ascii.eqb x2 "="%char = false ->
  strip_padding (String x0 (String x1 (String x2 "=")))
  = String x0 (String x1 (String x2 EmptyString)).
Proof.
  intros E. cbv -[Ascii.eqb]. rewrite E. reflexivity.
Qed.

Lemma strip_padding_none x0 x1 x2 x3 :
  Ascii.eqb x3 "="%char = false ->
  strip_padding (String x0 (String x1 (String x2 (String x3 EmptyString))))
  = String x0 (String x1 (String x2 (String x3 EmptyString))).
Proof.
  intros E. cbv -[Ascii.eqb]. rewrite E.
  destruct (Ascii.eqb x2 "="); reflexivity.
Qed.

Lemma strip_btoa s : strip_padding (btoa s) = unpadded s.
Proof.
  induction s as [|a|a b|a b c r IH] using string_ind3.
  - reflexivity.
  - reflexivity.
  - apply strip_padding_one, digit_not_pad.
  - rewrite btoa_step. destruct r as [|d r'].
    + apply strip_padding_none, digit_not_pad.
    + rewrite strip_padding_group
        by (try apply length_btoa; apply btoa_nonempty; discriminate).
      rewrite IH. reflexivity.
Qed.

Lemma length_unpadded s :
  Nat.eqb (String.length (unpadded s) mod 4) 1 = false.
Proof.
  induction s as [|a|a b|a b c r IH] using string_ind3;
    try reflexivity.
  cbn [unpadded String.length]. cbv zeta. cbn [String.length].
  replace (S (S (S (S (String.length (unpadded r))))))
    with (String.length (unpadded r) + 1 * 4) by lia.
  rewrite Nat.Div0.mod_add. exact IH.
Qed.

Ltac euclid := zify; Z.to_euclidean_division_equations; lia.

Lemma byte_of_ascii a n : (n mod 256 = N_of_ascii a)%N -> byte n = a.
Proof.
  intros E. unfold byte. rewrite E. apply ascii_N_embedding.
Qed.

Lemma decode_unpadded s :
  exists xs, sextets (unpadded s) = Some xs /\ octets xs = s.
Proof.
  induction s as [|a|a b|a b c r (xs & S & O)] using string_ind3.
  - exists []. split; reflexivity.
  - pose proof (N_ascii_bounded a) as A.
    cbn [unpadded sextets]. cbv zeta.
    rewrite !sextet_digit by euclid. eexists. split; [reflexivity|].
    cbn [octets]. f_equal. apply byte_of_ascii. euclid.
  - pose proof (N_ascii_bounded a) as A. pose proof (N_ascii_bounded b) as B.
    cbn [unpadded sextets]. cbv zeta.
    rewrite !sextet_digit by euclid. eexists. split; [reflexivity|].
    cbn [octets]. f_equal; [|f_equal]; apply byte_of_ascii; euclid.
  - pose proof (N_ascii_bounded a) as A. pose proof (N_ascii_bounded b) as B.
    pose proof (N_ascii_bounded c) as C.
    cbn [unpadded sextets]. cbv zeta.
    rewrite !sextet_digit by euclid. rewrite S. eexists.
    split; [reflexivity|]. cbn [octets]. rewrite O.
    f_equal; [|f_equal; [|f_equal]]; apply byte_of_ascii; euclid.
Qed.

(** Decoding undoes encoding. *)
Lemma atob_btoa binary : atob (btoa binary) = Ok binary.
Proof.
  unfold atob.
  assert (F : string_filter (fun c => negb (ascii_whitespace c)) (btoa binary)
              = btoa binary).
  { unfold btoa. rewrite string_filter_app, filter_unpadded. f_equal.
    unfold padding. destruct (String.length binary mod 3) as [|[|[|n]]];
      reflexivity. }
  rewrite F, strip_btoa, length_unpadded.
  destruct (decode_unpadded binary) as (xs & -> & ->). reflexivity.
Qed.

End Base64.

(** X1.  [isValidBase64] accepts exactly the strings [btoa] produces: the
    padded encodings without whitespace. *)
Theorem isValidBase64_accepts_exactly_the_encodings str :
  isValidBase64 str = true <-> exists binary, str = btoa binary.
Proof.
  unfold isValidBase64. split.
  - destruct (atob str) as [binary|]; [|discriminate].
    intros E. apply String.eqb_eq in E. eauto.
  - intros (binary & ->). rewrite atob_btoa. apply String.eqb_refl.
Qed.

(** X2.  A string [isValidBase64] accepts has a length that is a multiple
    of four and holds no whitespace, although [atob] alone decodes strings
    without padding and with whitespace. *)
Theorem isValidBase64_wants_padding_and_no_whitespace str :
  isValidBase64 str = true ->
  String.length str mod 4 = 0
  /\ string_filter (fun c => negb (ascii_whitespace c)) str = str.
Proof.
  unfold isValidBase64. destruct (atob str) as [binary|]; [|discriminate].
  intros E. apply String.eqb_eq in E. subst str.
  split; [apply length_btoa|].
  unfold btoa. rewrite string_filter_app, filter_unpadded. f_equal.
  unfold padding. destruct (String.length binary mod 3) as [|[|[|n]]];
    reflexivity.
Qed.

Lemma isValidBase64_at_hello :
  isValidBase64 "aGVsbG8=" = true
  /\ String.length "aGVsbG8=" mod 4 = 0
  /\ string_filter (fun c => negb (ascii_whitespace c)) "aGVsbG8="
     = "aGVsbG8=".
Proof.
  split; [reflexivity|].
  exact (isValidBase64_wants_padding_and_no_whitespace "aGVsbG8=" eq_refl).
Defined.

(** ** The Input Normalizer, case by case *)

Section Attachments.

Variables (request : value) (msgs : list value).
Hypothesis MESSAGES : prop request "messages" = VArr msgs.
Hypothesis PRESENT : Forall (fun msg => nullish msg = false) msgs.
Hypothesis MODEL : truthy (prop request "model") = true.

(** The endpoint on a request whose messages and model pass the checks. *)
Lemma prepare_ready :
  prepare request
  = if truthy (prop request "fileData") then
      if negb (truthy (prop (prop request "fileData") "base64"))
      then Ok (inl (bad_request "No file data")) else
      match attach (prop request "fileData") msgs (map copied msgs) with
      | Ok bedrockMessages =>
          Ok (inr (prop request "model", bedrockPayload bedrockMessages))
      | Throw _ => Ok (inl (bad_request "Failed to process file content"))
      end
    else Ok (inr (prop request "model", bedrockPayload (map copied msgs))).
Proof.
  assert (NR : nullish request = false)
    by (destruct request; try reflexivity; discriminate MESSAGES).
  unfold prepare. rewrite NR, MESSAGES, MODEL.
  cbn [truthy isArray negb orb elements].
  rewrite (mapM_ok outbound_message copied).
  - reflexivity.
  - intros x I. apply outbound_message_ok.
    rewrite Forall_forall in PRESENT. auto.
Qed.

Lemma POST_ready_sent bedrockMessages :
  prepare request
  = Ok (inr (prop request "model", bedrockPayload bedrockMessages)) ->
  POST request
  = Send (prop request "model") (bedrockPayload bedrockMessages) conclude.
Proof.
  intros P. unfold POST. rewrite P. reflexivity.
Qed.

Lemma POST_ready_refused message :
  prepare request = Ok (inl (bad_request message)) ->
  POST request = Respond (bad_request message).
Proof.
  intros P. unfold POST. rewrite P. reflexivity.
Qed.

End Attachments.

Lemma base64_truthy_object fileData :
  truthy (prop fileData "base64") = true -> truthy fileData = true.
Proof.
  intros T.
  destruct (prop_named_inv fileData "base64" (prop fileData "base64"))
    as (ffs & -> & _); try reflexivity.
  intros U. rewrite U in T. discriminate T.
Qed.

Lemma last_content_last (earlier : list value) lastMessage :
  nullish lastMessage = false ->
  last_content (earlier ++ [lastMessage]) = Ok (prop lastMessage "content").
Proof.
  intros N. unfold last_content. rewrite last_last. unfold get.
  rewrite N. reflexivity.
Qed.

Lemma set_last_copied (earlier : list value) lastMessage v :
  set_last (map copied (earlier ++ [lastMessage])) v
  = (map copied earlier ++ [v])%list.
Proof.
  unfold set_last. rewrite map_app. cbn [map]. apply f_equal2; [|reflexivity].
  apply removelast_last.
Qed.

Lemma Forall_last_present (earlier : list value) lastMessage :
  Forall (fun msg => nullish msg = false) (earlier ++ [lastMessage]) ->
  nullish lastMessage = false.
Proof.
  intros ALL. rewrite Forall_forall in ALL. apply ALL. apply in_or_app.
  right. left. reflexivity.
Qed.

(** X3.  A text file goes through unchanged: when the payload of a text
    attachment is the base64 encoding of a text that is not empty and is
    well-formed UTF-8, the service is called and the last outbound message
    is a user message whose first block is the text block "File contents of
    [fileName]:", an empty line and that very text, and whose second block
    is the text block of the content of the original last message. *)
Theorem text_attachment_round_trip
  request fileData fileName text earlier lastMessage :
  prop request "messages" = VArr (earlier ++ [lastMessage]) ->
  Forall (fun msg => nullish msg = false) (earlier ++ [lastMessage]) ->
  truthy (prop request "model") = true ->
  prop request "fileData" = fileData ->
  truthy (prop fileData "isText") = true ->
  prop fileData "base64" = VStr (btoa text) ->
  text <> EmptyString ->
  well_formed_utf8 text = true ->
  prop fileData "fileName" = VStr fileName ->
  exists payload,
    POST request = Send (prop request "model") payload conclude
    /\ messages payload
       = (map copied earlier
          ++ [VObj
                [("role", VStr "user");
                 ("content",
                  VArr
                    [VObj [("type", VStr "text");
                           ("text",
                            VStr ("File contents of " ++ fileName ++ ":"
                                  ++ LF ++ LF ++ text))];
                     VObj [("type", VStr "text");
                           ("text", prop lastMessage "content")]])]])%list.
Proof.
  intros MSGS ALL MODEL FD TEXT B64 NE UTF NAME.
  assert (B64T : truthy (prop fileData "base64") = true).
  { rewrite B64. cbn [truthy]. apply negb_true_iff, String.eqb_neq.
    apply btoa_nonempty. exact NE. }
  eexists. split.
  - apply POST_ready_sent.
    rewrite (prepare_ready _ _ MSGS ALL MODEL), FD.
    rewrite (base64_truthy_object _ B64T), B64T. cbn [negb].
    unfold attach. rewrite TEXT, B64, NAME. cbn [to_string bind].
    rewrite atob_btoa. cbn [bind]. unfold decode_utf8. rewrite UTF.
    cbn [bind].
    rewrite (last_content_last _ _ (Forall_last_present _ _ ALL)).
    cbn [bind]. rewrite set_last_copied. reflexivity.
  - reflexivity.
Qed.

Lemma text_attachment_round_trip_at_hello :
  btoa "hello" = "aGVsbG8="
  /\ exists payload,
       POST example_attachment
       = Send (VStr "anthropic.claude-3-haiku-20240307-v1:0") payload
           conclude
       /\ messages payload
          = [VObj [("role", VStr "user"); ("content", VStr "hi")];
             VObj [("role", VStr "user");
                   ("content",
                    VArr [VObj [("type", VStr "text");
                                ("text", VStr "File contents of a.txt:

hello")];
                          VObj [("type", VStr "text");
                                ("text", VStr "summarize")]])]].
Proof.
  split; [reflexivity|].
  exact (text_attachment_round_trip example_attachment
           (prop example_attachment "fileData") "a.txt" "hello"
           [VObj [("role", str "user"); ("content", str "hi")]]
           (VObj [("role", str "assistant"); ("content", str "summarize")])
           eq_refl ltac:(repeat constructor) eq_refl eq_refl eq_refl eq_refl
           ltac:(discriminate) eq_refl eq_refl).
Defined.

(** X4.  An attachment without payload is refused: when [fileData] is
    present and its [base64] is missing or falsy (the encoding of an empty
    file is the empty string), the endpoint answers 400 with "No file data"
    and sends nothing. *)
Theorem attachment_without_payload_is_refused request msgs :
  prop request "messages" = VArr msgs ->
  Forall (fun msg => nullish msg = false) msgs ->
  truthy (prop request "model") = true ->
  truthy (prop request "fileData") = true ->
  truthy (prop (prop request "fileData") "base64") = false ->
  POST request = Respond (bad_request "No file data").
Proof.
  intros MSGS ALL MODEL FD B64. apply POST_ready_refused.
  rewrite (prepare_ready _ _ MSGS ALL MODEL), FD, B64. reflexivity.
Qed.

(** X5.  An image is attached as it is: when the attachment has a payload
    that is not empty, is not a text file and has a media type that starts
    with "image/", the service is called and the last outbound message is a
    user message of an image block, whose source has the type "base64", the
    media type of the attachment and, as its data, the payload of the
    request, neither decoded nor validated, followed by a text block with
    the content of the original last message. *)
Theorem image_attachment_rewrites_last_message
  request fileData mediaType earlier lastMessage :
  prop request "messages" = VArr (earlier ++ [lastMessage]) ->
  Forall (fun msg => nullish msg = false) (earlier ++ [lastMessage]) ->
  truthy (prop request "model") = true ->
  prop request "fileData" = fileData ->
  truthy (prop fileData "base64") = true ->
  truthy (prop fileData "isText") = false ->
  prop fileData "mediaType" = VStr mediaType ->
  String.prefix "image/" mediaType = true ->
  exists payload,
    POST request = Send (prop request "model") payload conclude
    /\ messages payload
       = (map copied earlier
          ++ [VObj
                [("role", VStr "user");
                 ("content",
                  VArr
                    [VObj [("type", VStr "image");
                           ("source",
                            VObj [("type", VStr "base64");
                                  ("media_type", VStr mediaType);
                                  ("data", prop fileData "base64")])];
                     VObj [("type", VStr "text");
                           ("text", prop lastMessage "content")]])]])%list.
Proof.
  intros MSGS ALL MODEL FD B64T TEXT MT IMG.
  eexists. split.
  - apply POST_ready_sent.
    rewrite (prepare_ready _ _ MSGS ALL MODEL), FD.
    rewrite (base64_truthy_object _ B64T), B64T. cbn [negb].
    unfold attach. rewrite TEXT, MT. cbn [startsWith bind]. rewrite IMG.
    rewrite (last_content_last _ _ (Forall_last_present _ _ ALL)).
    cbn [bind]. rewrite set_last_copied. reflexivity.
  - reflexivity.
Qed.

(** X6.  A file that is neither text nor image is dropped without a word:
    the request is sent with the copies of the messages, as if there were
    no attachment. *)
Theorem other_attachment_is_ignored request fileData mediaType msgs :
  prop request "messages" = VArr msgs ->
  Forall (fun msg => nullish msg = false) msgs ->
  truthy (prop request "model") = true ->
  prop request "fileData" = fileData ->
  truthy (prop fileData "base64") = true ->
  truthy (prop fileData "isText") = false ->
  prop fileData "mediaType" = VStr mediaType ->
  String.prefix "image/" mediaType = false ->
  POST request
  = Send (prop request "model") (bedrockPayload (map copied msgs)) conclude.
Proof.
  intros MSGS ALL MODEL FD B64T TEXT MT IMG. apply POST_ready_sent.
  rewrite (prepare_ready _ _ MSGS ALL MODEL), FD.
  rewrite (base64_truthy_object _ B64T), B64T. cbn [negb].
  unfold attach. rewrite TEXT, MT. cbn [startsWith bind]. rewrite IMG.
  reflexivity.
Qed.

(** X7.  Without attachment every message is sent as a copy that has its
    role and its content and nothing else; an empty conversation is sent
    too. *)
Theorem messages_are_copied_without_attachment request msgs :
  prop request "messages" = VArr msgs ->
  Forall (fun msg => nullish msg = false) msgs ->
  truthy (prop request "model") = true ->
  truthy (prop request "fileData") = false ->
  POST request
  = Send (prop request "model") (bedrockPayload (map copied msgs)) conclude.
Proof.
  intros MSGS ALL MODEL FD. apply POST_ready_sent.
  rewrite (prepare_ready _ _ MSGS ALL MODEL), FD. reflexivity.
Qed.



(** ** The endpoint as a whole *)

Section Endpoint.

Lemma mapM_throws {A B} (f : A -> result B) (l : list A) x e :
  In x l -> f x = Throw e ->
  exists y e', In y l /\ f y = Throw e' /\ mapM f l = Throw e'.
Proof.
  induction l as [|a r IH]; intros I F; [destruct I|].
  simpl. destruct (f a) as [b|ea] eqn:Fa.
  - destruct I as [->|I]; [congruence|].
    destruct (IH I F) as (y & e' & Iy & Fy & M).
    exists y, e'. rewrite M. simpl. auto.
  - exists a, ea. simpl. auto.
Qed.

Lemma ote_outbound_message msg : only_type_errors (outbound_message msg).
Proof.
  unfold outbound_message. type_errors.
Qed.

(** A response returned before the service is called is a bad request. *)
Lemma prepare_refusal request r :
  prepare request = Ok (inl r) -> exists message, r = bad_request message.
Proof.
  unfold prepare. destruct (nullish request); [discriminate|].
  destruct (_ || _); [intros [= <-]; eauto|].
  destruct (negb (truthy (prop request "model"))); [intros [= <-]; eauto|].
  destruct (mapM outbound_message _); [|discriminate]. cbn [bind].
  destruct (truthy (prop request "fileData")); [|discriminate].
  destruct (negb (truthy _)); [intros [= <-]; eauto|].
  destruct (attach _ _ _); [discriminate|intros [= <-]; eauto].
Qed.

(** What the service is called with. *)
Lemma prepare_sent request model payload :
  prepare request = Ok (inr (model, payload)) ->
  model = prop request "model" /\ truthy model = true
  /\ payload = bedrockPayload (messages payload).
Proof.
  unfold prepare. destruct (nullish request); [discriminate|].
  destruct (_ || _); [discriminate|].
  destruct (truthy (prop request "model")) eqn:M; [|discriminate].
  cbn [negb].
  destruct (mapM outbound_message _); [|discriminate]. cbn [bind].
  destruct (truthy (prop request "fileData")).
  - destruct (negb (truthy _)); [discriminate|].
    destruct (attach _ _ _); [|discriminate].
    intros [= <- <-]. auto.
  - intros [= <- <-]. auto.
Qed.

Lemma POST_Send_prepare request model payload k :
  POST request = Send model payload k ->
  prepare request = Ok (inr (model, payload)) /\ k = conclude.
Proof.
  unfold POST. destruct (prepare request) as [[r|[m p]]|e];
    try discriminate; [|destruct (on_error e); discriminate].
  intros [= -> -> <-]. auto.
Qed.

(** The exceptions of the handler itself are type errors and the
    chart-data error. *)
Lemma prepare_type_errors request e :
  prepare request = Throw e -> exists what, e = TypeError what.
Proof.
  unfold prepare. destruct (nullish request); [intros [= <-]; eauto|].
  destruct (_ || _); [discriminate|].
  destruct (negb (truthy (prop request "model"))); [discriminate|].
  destruct (mapM outbound_message _) eqn:M.
  - cbn [bind]. destruct (truthy (prop request "fileData")); [|discriminate].
    destruct (negb (truthy _)); [discriminate|].
    destruct (attach _ _ _); discriminate.
  - cbn [bind]. intros [= <-].
    apply (ote_mapM outbound_message _ ote_outbound_message _ M).
Qed.

Lemma processToolResponse_errors tu e :
  processToolResponse tu = Throw e ->
  (exists what, e = TypeError what) \/ e = chart_error.
Proof.
  unfold processToolResponse. destruct (negb (truthy tu)); [discriminate|].
  destruct (get tu "input") as [chartData|e1] eqn:G1.
  2:{ cbn [bind]. intros [= <-]. left. apply (ote_get _ _ _ G1). }
  cbn [bind]. destruct (get chartData "chartType") as [chartType|e2] eqn:G2.
  2:{ cbn [bind]. intros [= <-]. left. apply (ote_get _ _ _ G2). }
  cbn [bind]. destruct (_ || _); [intros [= <-]; right; reflexivity|].
  intros H. left. apply (after_validation_type_errors _ _ _ _ H).
Qed.

Lemma finish_errors response e :
  finish (Reply response) = Throw e ->
  (exists what, e = TypeError what) \/ e = chart_error.
Proof.
  cbn [finish]. destruct (get response "content") as [content|e1] eqn:G.
  2:{ cbn [bind]. intros [= <-]. left. apply (ote_get _ _ _ G). }
  cbn [bind]. destruct (isArray content); [|intros [= <-]; left; eauto].
  cbn [bind].
  destruct (mapM _ (elements content)) as [types|e2] eqn:M.
  2:{ cbn [bind]. intros [= <-]. left.
      apply (ote_mapM _ _ (fun c => ote_get c "type") _ M). }
  cbn [bind]. destruct (truthy _).
  - destruct (processToolResponse _) as [[tu' out]|e3] eqn:P; [discriminate|].
    cbn [bind]. intros [= <-]. apply (processToolResponse_errors _ _ P).
  - discriminate.
Qed.

(** The constructor of a response on a status it can carry, and on the
    others. *)
Lemma new_Response_valid body status headers :
  valid_status (status mod 65536) ->
  new_Response body status headers
  = Ok {| status := VNum (Z.of_N (status mod 65536));
          body := body;
          headers := headers |}.
Proof.
  intros (R & A & B & C). unfold new_Response. cbv zeta.
  replace (status mod 65536 <? 200)%N with false
    by (symmetry; apply N.ltb_ge; lia).
  replace (599 <? status mod 65536)%N with false
    by (symmetry; apply N.ltb_ge; lia).
  cbn [orb existsb null_body_statuses].
  replace (status mod 65536 =? 101)%N with false
    by (symmetry; apply N.eqb_neq; lia).
  replace (status mod 65536 =? 103)%N with false
    by (symmetry; apply N.eqb_neq; lia).
  apply N.eqb_neq in A, B, C. rewrite A, B, C. reflexivity.
Qed.

Lemma new_Response_out_of_range body status headers :
  (status mod 65536 < 200 \/ 599 < status mod 65536)%N ->
  exists what,
    new_Response body status headers = Throw (JsError "RangeError" what).
Proof.
  intros R. unfold new_Response. cbv zeta.
  destruct (status mod 65536 <? 200)%N eqn:L; [eexists; reflexivity|].
  destruct (599 <? status mod 65536)%N eqn:H; [eexists; reflexivity|].
  apply N.ltb_ge in L, H. lia.
Qed.

Lemma new_Response_null_body body status headers :
  In (status mod 65536)%N [204; 205; 304]%N ->
  exists what, new_Response body status headers = Throw (TypeError what).
Proof.
  intros I. unfold new_Response. cbv zeta.
  assert (E : existsb (N.eqb (status mod 65536)) null_body_statuses = true).
  { apply existsb_exists. exists (status mod 65536)%N.
    split; [|apply N.eqb_refl]. simpl in *. tauto. }
  rewrite E.
  replace (status mod 65536 <? 200)%N with false
    by (symmetry; apply N.ltb_ge; simpl in I; lia).
  replace (599 <? status mod 65536)%N with false
    by (symmetry; apply N.ltb_ge; simpl in I; lia).
  eexists. reflexivity.
Qed.

Lemma valid_status_dec n :
  valid_status n
  \/ ((n < 200 \/ 599 < n)%N \/ In n [204; 205; 304]%N).
Proof.
  unfold valid_status. simpl.
  destruct (N.lt_ge_cases n 200); [tauto|].
  destruct (N.lt_ge_cases 599 n); [tauto|].
  destruct (N.eq_dec n 204) as [->|]; [tauto|].
  destruct (N.eq_dec n 205) as [->|]; [tauto|].
  destruct (N.eq_dec n 304) as [->|]; [tauto|].
  left. repeat split; try assumption; lia.
Qed.

(** The errors of the handler itself are reported with status 500. *)
Lemma on_error_TypeError what :
  on_error (TypeError what)
  = Ok {| status := VNum 500;
          body := VObj [("error", VStr "Bedrock API Error");
                        ("details", VStr what);
                        ("code", VNum 500)];
          headers := [] |}.
Proof.
  reflexivity.
Qed.

(** The response of the [catch], when there is one. *)
Lemma on_error_ok e r :
  on_error e = Ok r ->
  exists n, status r = VNum (Z.of_N n) /\ valid_status n
            /\ error_body (body r).
Proof.
  assert (NR : forall b st h r',
             new_Response b st h = Ok r' ->
             status r' = VNum (Z.of_N (st mod 65536))
             /\ valid_status (st mod 65536) /\ body r' = b).
  { intros b st h r' H.
    destruct (valid_status_dec (st mod 65536)) as [V|[O|NB]].
    - rewrite (new_Response_valid _ _ _ V) in H. injection H as <-. auto.
    - destruct (new_Response_out_of_range b st h O) as (what & E).
      rewrite E in H. discriminate H.
    - destruct (new_Response_null_body b st h NB) as (what & E).
      rewrite E in H. discriminate H. }
  intros H. destruct e; cbn [on_error] in H;
    apply NR in H as (S & V & B); eexists;
    (split; [exact S|]); (split; [exact V|]); rewrite B;
    eexists; repeat split.
Qed.

End Endpoint.

(** X10.  A conversation with a hole is a server error: when [messages] is
    an array that holds [null] and [model] is present, the endpoint answers
    with status 500 and the error "Bedrock API Error", before it looks at
    the attachment and without sending anything. *)
Theorem null_message_is_a_server_error request msgs hole :
  prop request "messages" = VArr msgs ->
  In hole msgs -> nullish hole = true ->
  truthy (prop request "model") = true ->
  exists details,
    POST request
    = Respond {| status := VNum 500;
                 body := VObj [("error", VStr "Bedrock API Error");
                               ("details", VStr details);
                               ("code", VNum 500)];
                 headers := [] |}.
Proof.
  intros MSGS I H MODEL.
  assert (NR : nullish request = false)
    by (destruct request; try reflexivity; discriminate MSGS).
  assert (F : exists e, outbound_message hole = Throw e).
  { unfold outbound_message, get. rewrite H. eexists. reflexivity. }
  destruct F as (e & F).
  destruct (mapM_throws outbound_message msgs hole e I F)
    as (y & e' & _ & Fy & M).
  destruct (ote_outbound_message y e' Fy) as (details & ->).
  exists details. unfold POST, prepare. rewrite NR, MSGS, MODEL.
  cbn [truthy isArray negb orb elements]. rewrite M. reflexivity.
Qed.

(** X11.  A failure of the service is reported with its own status when a
    response can have it: when the client of the service throws an error
    that carries a status code other than 0, and that code, taken modulo
    2^16, is a status from 200 to 599 other than 204, 205 and 304, the
    response has that status, repeats the code as [code] and gives the
    message of the error as [details]; on any other such code there is no
    response, the handler ends with the exception of the constructor of the
    response (a [RangeError] out of the range, a [TypeError] on 204, 205
    and 304).  An error with the status code 0 or with none is reported with
    status 500; a thrown value that is not an error gives the response 500
    "An unknown error occurred". *)
Theorem service_failure_is_reported request model payload k :
  POST request = Send model payload k ->
  (forall statusCode message,
     statusCode <> 0%N ->
     let status := (statusCode mod 65536)%N in
     (valid_status status ->
      k (Failure (UpstreamError statusCode message))
      = Ok {| status := VNum (Z.of_N status);
              body := VObj [("error", VStr "Bedrock API Error");
                            ("details", VStr message);
                            ("code", VNum (Z.of_N statusCode))];
              headers := [] |})
     /\ ((status < 200 \/ 599 < status)%N ->
         exists what,
           k (Failure (UpstreamError statusCode message))
           = Throw (JsError "RangeError" what))
     /\ (In status [204; 205; 304]%N ->
         exists what,
           k (Failure (UpstreamError statusCode message))
           = Throw (TypeError what)))
  /\ (forall message,
        k (Failure (UpstreamError 0 message))
        = Ok {| status := VNum 500;
                body := VObj [("error", VStr "Bedrock API Error");
                              ("details", VStr message);
                              ("code", VNum 500)];
                headers := [] |})
  /\ (forall name message,
        k (Failure (JsError name message))
        = Ok {| status := VNum 500;
                body := VObj [("error", VStr "Bedrock API Error");
                              ("details", VStr message);
                              ("code", VNum 500)];
                headers := [] |})
  /\ (forall thrown,
        k (Failure (NotAnError thrown))
        = Ok {| status := VNum 500;
                body := VObj [("error", VStr "An unknown error occurred")];
                headers := [("Content-Type", "application/json")] |}).
Proof.
  intros S. apply POST_Send_prepare in S as [_ ->].
  split; [|repeat split; reflexivity].
  intros statusCode message NZ status.
  unfold conclude. cbn [finish on_error statusCode_of message_of].
  apply N.eqb_neq in NZ. rewrite NZ. fold status.
  split; [|split].
  - intros V. apply (new_Response_valid _ _ _ V).
  - apply new_Response_out_of_range.
  - apply new_Response_null_body.
Qed.

(** X12.  A call of the endpoint ends with a response of one of two shapes,
    or with no response.  The response has a status from 200 to 599 that
    is not 204, 205 or 304, and it is either a response of status 200 whose
    body has exactly the keys [content], [hasToolUse], [toolUse] and
    [chartData], or a response whose body has an [error] message and none
    of those keys: chart data never comes with an error.  There is no
    response only when the service was called and failed with an error
    whose status code, which is not 0, is not such a status modulo 2^16. *)
Theorem response_is_a_result_or_an_error request u :
  match run request u with
  | Ok r =>
      exists n,
        status r = VNum (Z.of_N n)
        /\ valid_status n
        /\ ((n = 200%N /\ result_body (body r)) \/ error_body (body r))
  | Throw _ =>
      exists statusCode message model payload,
        u = Failure (UpstreamError statusCode message)
        /\ statusCode <> 0%N
        /\ ~ valid_status (statusCode mod 65536)
        /\ POST request = Send model payload conclude
  end.
Proof.
  assert (OK : valid_status 200) by (unfold valid_status; repeat split; lia).
  assert (BAD : valid_status 400) by (unfold valid_status; repeat split; lia).
  assert (E : forall e r, on_error e = Ok r ->
                exists n, status r = VNum (Z.of_N n) /\ valid_status n
                  /\ ((n = 200%N /\ result_body (body r))
                      \/ error_body (body r))).
  { intros e r H. destruct (on_error_ok _ _ H) as (n & S & V & B).
    exists n. auto. }
  unfold run, POST.
  destruct (prepare request) as [[r|[m p]]|e] eqn:P.
  - apply prepare_refusal in P as (message & ->).
    exists 400%N. split; [reflexivity|]. split; [exact BAD|]. right.
    eexists. repeat split.
  - unfold conclude. destruct (finish u) as [r|e] eqn:F.
    + destruct u as [response|e]; [|discriminate F].
      cbn [finish] in F.
      destruct (get response "content"); [|discriminate F]. cbn [bind] in F.
      destruct (if isArray a then _ else _); [|discriminate F].
      cbn [bind] in F. destruct (mapM _ a0); [|discriminate F].
      cbn [bind] in F.
      destruct (if truthy _ then _ else _) as [[tu' out]|]; [|discriminate F].
      cbn [bind] in F. injection F as <-.
      exists 200%N. split; [reflexivity|]. split; [exact OK|]. left.
      split; [reflexivity|]. do 4 eexists. reflexivity.
    + destruct (on_error e) as [r|e'] eqn:R; [exact (E _ _ R)|].
      destruct u as [response|e0].
      * destruct (finish_errors _ _ F) as [(what & ->) | ->];
          discriminate R.
      * injection F as ->.
        destruct e; try discriminate R.
        cbn [on_error statusCode_of] in R.
        destruct (statusCode =? 0)%N eqn:Z; [discriminate R|].
        apply N.eqb_neq in Z.
        exists statusCode, message, m, p.
        split; [reflexivity|]. split; [exact Z|]. split; [|reflexivity].
        intros V. rewrite (new_Response_valid _ _ _ V) in R.
        discriminate R.
  - destruct (prepare_type_errors request e P) as (what & ->).
    rewrite on_error_TypeError.
    apply (E (TypeError what)). apply on_error_TypeError.
Qed.

(** X20.  Whenever the endpoint calls the service, the model is the [model]
    of the request, passed on as it is, and everything in the payload but
    the messages is fixed, whatever the request: the protocol version
    "bedrock-2023-05-31", the limit of 4096 tokens, the temperature 0.7, the
    two tools [generate_graph_data] and [get_stock_price] with the fields
    they require, the tool choice "auto", and the system prompt of 2886
    characters from "You are a financial data visualization expert." to
    "enhance understanding.". *)
Theorem service_is_called_with_the_fixed_payload request model payload k :
  POST request = Send model payload k ->
  model = prop request "model"
  /\ truthy model = true
  /\ anthropic_version payload = "bedrock-2023-05-31"
  /\ max_tokens payload = 4096%Z
  /\ temperature payload = (7 # 10)%Q
  /\ map name (payload_tools payload)
     = ["generate_graph_data"; "get_stock_price"]
  /\ map (fun t =>
            match input_schema t with
            | TObject _ required _ => required
            | _ => []
            end) (payload_tools payload)
     = [["chartType"; "config"; "data"; "chartConfig"];
        ["ticker"; "start"; "end"]]
  /\ tool_choice payload = "auto"
  /\ String.length (system payload) = 2886
  /\ String.prefix "You are a financial data visualization expert."
       (system payload) = true
  /\ substring 2864 22 (system payload) = "enhance understanding."
  /\ k = conclude.
Proof.
  intros S. apply POST_Send_prepare in S as [P ->].
  apply prepare_sent in P as (M & T & PL).
  split; [exact M|]. split; [exact T|]. rewrite PL.
  repeat split; reflexivity.
Qed.

(** ** Colour variables *)

Section ColourVariables.





End ColourVariables.

(** ** The Response Parser *)

Section Parser.

Lemma tool_use_block_truthy c type :
  is_string (prop c "type") type = true -> truthy c = true.
Proof.
  intros T.
  destruct (prop_named_inv c "type" (prop c "type")) as (fs & -> & _);
    try reflexivity.
  intros U. rewrite U in T. discriminate T.
Qed.

Lemma hasToolUse_find blocks :
  hasToolUse blocks = truthy (find_type "tool_use" blocks).
Proof.
  unfold hasToolUse, find_type.
  induction blocks as [|c r IH]; [reflexivity|]. simpl.
  destruct (is_string (prop c "type") "tool_use") eqn:T; simpl.
  - symmetry. eapply tool_use_block_truthy. exact T.
  - exact IH.
Qed.

Lemma hasToolUse_app before after :
  hasToolUse (before ++ after) = hasToolUse before || hasToolUse after.
Proof.
  apply existsb_app.
Qed.

Lemma find_type_first type before c after :
  existsb (fun c => is_string (prop c "type") type) before = false ->
  is_string (prop c "type") type = true ->
  find_type type (before ++ c :: after) = c.
Proof.
  unfold find_type. intros B T.
  induction before as [|b r IH]; simpl.
  - rewrite T. reflexivity.
  - simpl in B. apply orb_false_iff in B as [B1 B2]. rewrite B1. auto.
Qed.

Lemma first_text_find blocks :
  Forall (fun c => nullish c = false) blocks ->
  js_or (if nullish (find_type "text" blocks) then VUndef
         else prop (find_type "text" blocks) "text") (VStr EmptyString)
  = first_text blocks.
Proof.
  intros ALL. unfold first_text, find_type.
  destruct (find _ blocks) as [c|] eqn:F; [|reflexivity].
  apply find_some in F as [I _]. rewrite Forall_forall in ALL.
  rewrite (ALL c I). reflexivity.
Qed.

(** The handler on a reply whose blocks are all there. *)
Lemma finish_blocks response blocks :
  prop response "content" = VArr blocks ->
  Forall (fun c => nullish c = false) blocks ->
  finish (Reply response)
  = st <- (if truthy (find_type "tool_use" blocks)
           then processToolResponse (find_type "tool_use" blocks)
           else Ok (find_type "tool_use" blocks, VNull)) ;;
    Ok (result_response (first_text blocks) (hasToolUse blocks)
          (fst st) (snd st)).
Proof.
  intros C ALL.
  assert (NR : nullish response = false)
    by (destruct response; try reflexivity; discriminate C).
  cbn [finish]. unfold get at 1. rewrite NR, C.
  cbn [bind isArray elements].
  rewrite (mapM_ok (fun c => get c "type") (fun c => prop c "type")).
  2:{ intros c I. unfold get. rewrite Forall_forall in ALL.
      rewrite (ALL c I). reflexivity. }
  cbn [bind]. rewrite (first_text_find _ ALL).
  destruct (if truthy _ then _ else _) as [[tu' out]|]; reflexivity.
Qed.



End Parser.

(** X13.  A reply without tool invocation is answered 200 with the text of
    its first text block as [content] (the empty string when there is no
    text block), [hasToolUse] false, no [toolUse] and a [null]
    [chartData]. *)
Theorem reply_without_invocation_is_passed_on response blocks :
  prop response "content" = VArr blocks ->
  Forall (fun c => nullish c = false) blocks ->
  hasToolUse blocks = false ->
  finish (Reply response)
  = Ok (result_response (first_text blocks) false VUndef VNull).
Proof.
  intros C ALL H. rewrite (finish_blocks _ _ C ALL).
  pose proof (hasToolUse_find blocks) as F. rewrite H in F.
  rewrite <- F, H. cbn [bind fst snd].
  unfold find_type in *. destruct (find _ blocks) as [c|] eqn:E.
  - apply find_some in E as [_ E].
    rewrite (tool_use_block_truthy _ _ E) in F. discriminate F.
  - reflexivity.
Qed.

(** X14.  Only the first tool invocation of a reply counts: it alone is
    normalized, its chart and its state after normalization are what the
    response carries, and its error is the error of the request; the
    blocks after it, further invocations included, change nothing but the
    text. *)
Theorem first_invocation_decides response before toolUseContent after :
  let blocks := (before ++ toolUseContent :: after)%list in
  prop response "content" = VArr blocks ->
  Forall (fun c => nullish c = false) blocks ->
  hasToolUse before = false ->
  is_string (prop toolUseContent "type") "tool_use" = true ->
  finish (Reply response)
  = match processToolResponse toolUseContent with
    | Ok (toolUse, chartData) =>
        Ok (result_response (first_text blocks) true toolUse chartData)
    | Throw e => Throw e
    end.
Proof.
  intros blocks C ALL B T. rewrite (finish_blocks _ _ C ALL).
  assert (H : hasToolUse blocks = true).
  { unfold blocks. rewrite hasToolUse_app. apply orb_true_iff. right.
    unfold hasToolUse. simpl. rewrite T. reflexivity. }
  rewrite H. unfold blocks at 1 2 3.
  rewrite (find_type_first _ _ _ _ B T), (tool_use_block_truthy _ _ T).
  destruct (processToolResponse toolUseContent) as [[tu' out]|]; reflexivity.
Qed.


(** ** The normalizer on every chart type *)

Section EveryChartType.

Lemma mem_In k (ks : list string) : mem k ks = true <-> In k ks.
Proof.
  induction ks as [|a r IH]; simpl; [split; [discriminate|tauto]|].
  rewrite orb_true_iff, String.eqb_eq, IH. tauto.
Qed.

Lemma known_chart_type_truthy t :
  mem t chart_types = true -> truthy (VStr t) = true.
Proof.
  intros K. apply mem_In in K. simpl in K.
  repeat (destruct K as [<-|K]; [reflexivity|]). destruct K.
Qed.

(** The normalizer on a valid invocation, whatever its chart type: the
    chart is the input after the writes of the pie branch, if any, with the
    coloured [chartConfig]. *)
Lemma normalize_valid tu :
  valid_invocation tu = true ->
  exists tu' fs fs' cfs cfs' es,
    prop tu "input" = VObj fs
    /\ lookup "config" fs = Some (VObj cfs)
    /\ lookup "chartConfig" fs = Some (VObj es)
    /\ processToolResponse tu
       = Ok (tu', VObj (obj_set "chartConfig" (VObj (color_from 0 es)) fs'))
    /\ keys fs' = keys fs
    /\ (forall k, k <> "data" -> k <> "config" ->
                  lookup k fs' = lookup k fs)
    /\ lookup "config" fs' = Some (VObj cfs')
    /\ (forall f, f <> "xAxisKey" -> lookup f cfs' = lookup f cfs).
Proof.
  intros V.
  destruct (valid_invocation_shape _ V) as (tfs & input & -> & _ & I & S).
  destruct S. rewrite (prop_own _ _ _ I).
  destruct (String.eqb t "pie") eqn:P.
  - apply String.eqb_eq in P. subst t.
    pose proof (normalize_pie tfs fs cfs es rows WF I TYPE CONFIG XAXIS DATA
                  ROWS CHARTCONFIG ENTRIES_WF) as RUN.
    cbv zeta in RUN.
    do 6 eexists. split; [reflexivity|]. split; [exact CONFIG|].
    split; [exact CHARTCONFIG|]. split; [exact RUN|].
    assert (C1 : lookup "config" (obj_set "data"
                   (VArr (map (pie_slice (VObj cfs) (VObj es)) rows)) fs)
                 = Some (VObj cfs))
      by (rewrite lookup_obj_set_other by discriminate; exact CONFIG).
    split; [|split; [|split]].
    + rewrite (keys_obj_set_own _ _ _ _ C1).
      apply (keys_obj_set_own _ _ _ _ DATA).
    + intros k K1 K2. rewrite !lookup_obj_set_other by congruence.
      reflexivity.
    + apply lookup_obj_set_same.
    + intros f F. apply lookup_obj_set_other. exact F.
  - pose proof (normalize_other tfs fs es t rows WF I TYPE
                  (known_chart_type_truthy _ KNOWN) P DATA CHARTCONFIG
                  ENTRIES_WF) as RUN.
    exists (VObj tfs), fs, fs, cfs, cfs, es. repeat split; auto.
Qed.


Lemma prop_same_lookup fs gs k :
  lookup k fs = lookup k gs -> prop (VObj fs) k = prop (VObj gs) k.
Proof.
  intros E. cbn [prop]. rewrite E. reflexivity.
Qed.

End EveryChartType.

(** X16.  The chart is the input but for three fields: for a valid
    invocation of any chart type the normalizer succeeds, and its output has
    the keys of the input in the same order, the same value for every key
    other than [data], [config] and [chartConfig] (the chart type among
    them), and a [config] with the same fields but for [xAxisKey] (title,
    description, trend, footer and total label are kept). *)
Theorem chart_keeps_the_other_fields tu :
  valid_invocation tu = true ->
  let input := prop tu "input" in
  exists tu' out,
    processToolResponse tu = Ok (tu', out)
    /\ keys (own_entries out) = keys (own_entries input)
    /\ (forall k, k <> "data" -> k <> "config" -> k <> "chartConfig" ->
                  prop out k = prop input k)
    /\ (forall field, field <> "xAxisKey" ->
          prop (prop out "config") field = prop (prop input "config") field).
Proof.
  intros V input. subst input.
  destruct (normalize_valid _ V)
    as (tu' & fs & fs' & cfs & cfs' & es & I & CONFIG & CC & RUN & KEYS
        & SAME & CONFIG' & FIELDS).
  rewrite I. do 2 eexists. split; [exact RUN|].
  assert (CC' : lookup "chartConfig" fs' = Some (VObj es))
    by (rewrite SAME by discriminate; exact CC).
  split; [|split].
  - cbn [own_entries]. rewrite (keys_obj_set_own _ _ _ _ CC'). exact KEYS.
  - intros k K1 K2 K3. rewrite prop_obj_set_other by exact K3.
    apply prop_same_lookup, SAME; assumption.
  - intros field F. rewrite prop_obj_set_other by discriminate.
    rewrite (prop_own _ _ _ CONFIG'), (prop_own _ _ _ CONFIG).
    apply prop_same_lookup, FIELDS. exact F.
Qed.


(** X17.  A chart without [chartConfig] is a type error, not a chart-data
    error: when the input passes the structural validation and its
    [chartConfig] is missing or [null], the normalizer throws the type
    error of the language (which the endpoint reports with status 500 and
    the engine's message), whatever the chart type. *)
Theorem missing_chartConfig_is_a_type_error tu :
  truthy tu = true ->
  truthy (prop (prop tu "input") "chartType") = true ->
  isArray (prop (prop tu "input") "data") = true ->
  nullish (prop (prop tu "input") "chartConfig") = true ->
  exists what,
    processToolResponse tu = Throw (TypeError what)
    /\ on_error (TypeError what)
       = Ok {| status := VNum 500;
               body := VObj [("error", VStr "Bedrock API Error");
                             ("details", VStr what);
                             ("code", VNum 500)];
               headers := [] |}.
Proof.
  intros T CT DA CC.
  assert (NI : nullish (prop tu "input") = false).
  { destruct (prop tu "input"); try reflexivity; discriminate CT. }
  assert (R : forall st, processToolResponse tu <> Ok st).
  { intros [tu' out]. unfold processToolResponse. rewrite T. cbn [negb].
    unfold get at 1. rewrite (truthy_not_nullish _ T). cbn [bind].
    unfold get at 1. rewrite NI. cbn [bind].
    rewrite CT, DA, (array_is_truthy _ DA). cbn [negb orb].
    destruct (prop (prop tu "input") "data") as [| | | | |rows| |] eqn:D;
      try discriminate DA.
    apply prop_named_inv in D as (fs & I & D); try reflexivity;
      [|discriminate].
    rewrite I in *. destruct (is_string _ "pie"); cbn [bind elements].
    - destruct (mapM _ rows) as [data|]; [|discriminate].
      cbn [bind assign].
      destruct (assign (prop _ "config") "xAxisKey" _) as [config|];
        [|discriminate].
      cbn [bind assign].
      destruct (assign tu "input" _) as [tu2|]; [|discriminate].
      cbn [bind]. unfold Object_entries.
      rewrite !prop_obj_set_other by discriminate. rewrite CC. discriminate.
    - unfold Object_entries. rewrite CC. discriminate. }
  destruct (processToolResponse tu) as [st|e] eqn:P; [destruct (R st eq_refl)|].
  assert (K : exists what, e = TypeError what).
  { revert P. unfold processToolResponse. rewrite T. cbn [negb].
    unfold get at 1. rewrite (truthy_not_nullish _ T). cbn [bind].
    unfold get at 1. rewrite NI. cbn [bind].
    rewrite CT, DA, (array_is_truthy _ DA). cbn [negb orb].
    apply after_validation_type_errors. }
  destruct K as (what & ->). exists what. split; reflexivity.
Qed.


(** ** Normalizing a pie chart twice *)

Section PieTwice.

Lemma value_key_color_from es :
  value_key (VObj (color_from 0 es)) = value_key (VObj es).
Proof.
  unfold value_key. destruct es as [|[k v] r]; reflexivity.
Qed.

(** A pie row is left as it is when its segment is truthy or undefined and
    its value is not read under the name [segment] or an inherited name. *)
Lemma pie_slice_twice config chartConfig row segment value :
  segment_key config = "segment" ->
  value_key chartConfig <> "segment" ->
  mem (value_key chartConfig) object_prototype_keys = false ->
  row = VObj [("segment", segment); ("value", value)] ->
  segment = VUndef \/ truthy segment = true ->
  pie_slice config chartConfig row = row.
Proof.
  intros SK VK1 VK2 -> S. unfold pie_slice. rewrite SK.
  assert (V : js_or (prop (VObj [("segment", segment); ("value", value)])
                      (value_key chartConfig))
                (prop (VObj [("segment", segment); ("value", value)]) "value")
              = value).
  { cbn [prop lookup]. apply String.eqb_neq in VK1.
    rewrite String.eqb_sym, VK1.
    destruct (String.eqb "value" (value_key chartConfig)) eqn:E.
    - unfold js_or. destruct (truthy value); reflexivity.
    - unfold inherited. rewrite VK2. reflexivity. }
  rewrite V. change (prop (VObj [("segment", segment); ("value", value)])
                       "segment") with segment.
  change (prop (VObj [("segment", segment); ("value", value)]) "category")
    with VUndef.
  change (prop (VObj [("segment", segment); ("value", value)]) "name")
    with VUndef.
  destruct S as [->|S]; [reflexivity|].
  unfold js_or. repeat (rewrite S; cbv iota). reflexivity.
Qed.

End PieTwice.

(** X21.  Normalizing a pie chart twice gives the chart of the first run,
    under two conditions the code needs: the first key of [chartConfig] is
    neither [segment] nor a name every object inherits, and no row of the
    chart has a falsy segment other than [undefined].  Then a run on an
    invocation that carries the first chart as its input returns that very
    chart and writes nothing new. *)
Theorem renormalizing_a_pie_keeps_the_chart tu :
  valid_invocation tu = true ->
  prop (prop tu "input") "chartType" = VStr "pie" ->
  let first_key := value_key (prop (prop tu "input") "chartConfig") in
  first_key <> "segment" ->
  mem first_key object_prototype_keys = false ->
  exists tu' out,
    processToolResponse tu = Ok (tu', out)
    /\ ((forall row, In row (elements (prop out "data")) ->
           prop row "segment" = VUndef
           \/ truthy (prop row "segment") = true) ->
        forall tu2, prop tu2 "input" = out ->
          processToolResponse tu2 = Ok (tu2, out)).
Proof.
  intros V T first_key K1 K2. subst first_key.
  destruct (valid_invocation_shape _ V) as (tfs & inp & -> & _ & I & S).
  rewrite (prop_own _ _ _ I) in *. destruct S.
  rewrite (prop_own _ _ _ TYPE) in T. injection T as ->.
  rewrite (prop_own _ _ _ CHARTCONFIG) in K1, K2.
  pose proof (normalize_pie tfs fs cfs es rows WF I TYPE CONFIG XAXIS DATA
                ROWS CHARTCONFIG ENTRIES_WF) as RUN.
  cbv zeta in RUN.
  set (data := map (pie_slice (VObj cfs) (VObj es)) rows) in *.
  set (cfs' := obj_set "xAxisKey" (VStr "segment") cfs) in *.
  set (fs1 := obj_set "data" (VArr data) fs) in *.
  set (fs2 := obj_set "config" (VObj cfs') fs1) in *.
  set (out := obj_set "chartConfig" (VObj (color_from 0 es)) fs2) in *.
  assert (C1 : lookup "config" fs1 = Some (VObj cfs))
    by (unfold fs1; rewrite lookup_obj_set_other by discriminate;
        exact CONFIG).
  assert (CC2 : lookup "chartConfig" fs2 = Some (VObj es))
    by (unfold fs2, fs1; rewrite !lookup_obj_set_other by discriminate;
        exact CHARTCONFIG).
  assert (KEYS : keys out = keys fs).
  { unfold out. rewrite (keys_obj_set_own _ _ _ _ CC2). unfold fs2.
    rewrite (keys_obj_set_own _ _ _ _ C1). unfold fs1.
    apply (keys_obj_set_own _ _ _ _ DATA). }
  assert (ODATA : lookup "data" out = Some (VArr data)).
  { unfold out, fs2. rewrite !lookup_obj_set_other by discriminate.
    apply lookup_obj_set_same. }
  assert (OCONFIG : lookup "config" out = Some (VObj cfs')).
  { unfold out. rewrite lookup_obj_set_other by discriminate.
    apply lookup_obj_set_same. }
  assert (OCC : lookup "chartConfig" out = Some (VObj (color_from 0 es)))
    by apply lookup_obj_set_same.
  assert (OTYPE : lookup "chartType" out = Some (VStr "pie")).
  { unfold out, fs2, fs1. rewrite !lookup_obj_set_other by discriminate.
    exact TYPE. }
  assert (OX : lookup "xAxisKey" cfs' = Some (VStr "segment"))
    by apply lookup_obj_set_same.
  do 2 eexists. split; [exact RUN|].
  rewrite (prop_own _ _ _ ODATA). cbn [elements]. intros SEG tu2 I2.
  apply prop_object_inv in I2 as (tfs2 & -> & L2); try reflexivity.
  rewrite (normalize_pie tfs2 out cfs' (color_from 0 es) data).
  - assert (D2 : map (pie_slice (VObj cfs') (VObj (color_from 0 es))) data
                 = data).
    { rewrite <- (map_id data) at 2. apply map_ext_in. intros row' IN.
      pose proof (SEG row' IN) as S. unfold data in IN.
      apply in_map_iff in IN as (row & <- & _).
      eapply pie_slice_twice; try reflexivity.
      - unfold segment_key. rewrite (prop_own _ _ _ OX). reflexivity.
      - rewrite value_key_color_from. exact K1.
      - rewrite value_key_color_from. exact K2.
      - exact S. }
    rewrite D2, (obj_set_same _ _ _ ODATA), (obj_set_same _ _ _ OX),
      (obj_set_same _ _ _ OCONFIG), (color_from_twice _ ENTRIES),
      (obj_set_same _ _ _ OCC), (obj_set_same _ _ _ L2).
    reflexivity.
  - rewrite (wf_keys_same_keys _ fs); [exact WF|exact KEYS].
  - exact L2.
  - exact OTYPE.
  - exact OCONFIG.
  - intros x X. rewrite OX in X. injection X as <-. eauto.
  - exact ODATA.
  - intros row IN. unfold data in IN.
    apply in_map_iff in IN as (row0 & <- & _). unfold pie_slice. eauto.
  - exact OCC.
  - rewrite (wf_keys_same_keys _ es); [exact ENTRIES_WF|].
    apply keys_color_from.
Qed.

(** ** The further properties at the sample documents *)

Lemma empty_file_is_refused :
  POST (request_with [question] empty_file)
  = Respond (bad_request "No file data").
Proof.
  apply (attachment_without_payload_is_refused
           (request_with [question] empty_file) [question]);
    try reflexivity.
  repeat constructor.
Defined.

Lemma png_is_attached :
  exists payload,
    POST (request_with [question] png_file)
    = Send (VStr "anthropic.claude-3-haiku-20240307-v1:0") payload conclude
    /\ messages payload
       = [VObj
            [("role", VStr "user");
             ("content",
              VArr
                [VObj [("type", VStr "image");
                       ("source",
                        VObj [("type", VStr "base64");
                              ("media_type", VStr "image/png");
                              ("data", VStr "iVBORw0KGgo=")])];
                 VObj [("type", VStr "text");
                       ("text", VStr "What does this file show?")]])]].
Proof.
  exact (image_attachment_rewrites_last_message
           (request_with [question] png_file) png_file "image/png"
           [] question eq_refl ltac:(repeat constructor) eq_refl eq_refl
           eq_refl eq_refl eq_refl eq_refl).
Defined.

Lemma pdf_is_ignored :
  POST (request_with [question] pdf_file)
  = Send model_id (bedrockPayload [copied question]) conclude.
Proof.
  apply (other_attachment_is_ignored
           (request_with [question] pdf_file) pdf_file "application/pdf"
           [question]);
    try reflexivity.
  repeat constructor.
Defined.

Lemma question_is_copied :
  POST (request_with [question] VNull)
  = Send model_id (bedrockPayload [copied question]) conclude.
Proof.
  apply (messages_are_copied_without_attachment
           (request_with [question] VNull) [question]);
    try reflexivity.
  repeat constructor.
Defined.



Lemma null_message_at_sample :
  exists details,
    POST (request_with [question; VNull] VNull)
    = Respond {| status := VNum 500;
                 body := VObj [("error", VStr "Bedrock API Error");
                               ("details", VStr details);
                               ("code", VNum 500)];
                 headers := [] |}.
Proof.
  apply (null_message_is_a_server_error
           (request_with [question; VNull] VNull) [question; VNull] VNull);
    try reflexivity.
  right. left. reflexivity.
Defined.

Lemma throttling_is_reported :
  conclude (Failure (UpstreamError 429 "Too many requests"))
  = Ok {| status := VNum 429;
          body := VObj [("error", VStr "Bedrock API Error");
                        ("details", VStr "Too many requests");
                        ("code", VNum 429)];
          headers := [] |}
  /\ (exists what,
        conclude (Failure (UpstreamError 304 "Not Modified"))
        = Throw (TypeError what))
  /\ (exists what,
        conclude (Failure (UpstreamError 600 "Unknown"))
        = Throw (JsError "RangeError" what)).
Proof.
  pose proof (service_failure_is_reported
                (request_with [question] VNull) model_id
                (bedrockPayload [copied question]) conclude eq_refl) as H.
  split; [|split].
  - apply (proj1 (proj1 H 429%N "Too many requests" ltac:(discriminate))).
    unfold valid_status. repeat split; (discriminate || lia).
  - apply (proj2 (proj2 (proj1 H 304%N "Not Modified"
                           ltac:(discriminate)))).
    right. right. left. reflexivity.
  - apply (proj1 (proj2 (proj1 H 600%N "Unknown" ltac:(discriminate)))).
    right. reflexivity.
Defined.

Lemma throttled_request_gets_an_error :
  exists r,
    run (request_with [question] VNull)
      (Failure (UpstreamError 429 "Too many requests")) = Ok r
    /\ status r = VNum 429
    /\ error_body (body r).
Proof.
  eexists. split; [reflexivity|]. split; [reflexivity|].
  pose proof (response_is_a_result_or_an_error
                (request_with [question] VNull)
                (Failure (UpstreamError 429 "Too many requests"))) as H.
  change (run (request_with [question] VNull)
            (Failure (UpstreamError 429 "Too many requests")))
    with (conclude (Failure (UpstreamError 429 "Too many requests"))) in H.
  cbv beta iota delta [conclude finish on_error statusCode_of message_of
                       new_Response] in H.
  cbn in H. destruct H as (n & S & _ & [[-> _]|E]); [discriminate S|exact E].
Defined.

Lemma text_reply_is_passed_on :
  finish (Reply (reply_with [text_reply]))
  = Ok (result_response (str "Here is the comparison.") false VUndef VNull).
Proof.
  apply (reply_without_invocation_is_passed_on
           (reply_with [text_reply]) [text_reply]);
    try reflexivity.
  repeat constructor.
Defined.

Lemma bar_before_price :
  exists chartData,
    finish (Reply (reply_with [text_reply; example_bar; example_price]))
    = Ok (result_response (str "Here is the comparison.") true example_bar
            chartData).
Proof.
  rewrite (first_invocation_decides
             (reply_with [text_reply; example_bar; example_price])
             [text_reply] example_bar [example_price]);
    try reflexivity.
  - eexists. reflexivity.
  - repeat constructor.
Defined.


Lemma pie_keeps_title :
  exists tu' out,
    processToolResponse example_pie = Ok (tu', out)
    /\ prop out "chartType" = VStr "pie"
    /\ prop (prop out "config") "title" = VStr "Portfolio Allocation".
Proof.
  destruct (chart_keeps_the_other_fields example_pie eq_refl)
    as (tu' & out & RUN & _ & FIELDS & CONFIG).
  exists tu', out. split; [exact RUN|]. split.
  - rewrite FIELDS by discriminate. reflexivity.
  - rewrite CONFIG by discriminate. reflexivity.
Defined.

Lemma line_without_chartConfig :
  exists what,
    processToolResponse example_no_chartConfig = Throw (TypeError what).
Proof.
  destruct (missing_chartConfig_is_a_type_error example_no_chartConfig
              eq_refl eq_refl eq_refl eq_refl) as (what & RUN & _).
  exists what. exact RUN.
Defined.



Lemma question_is_sent_with_the_tools :
  map name (payload_tools (bedrockPayload [copied question]))
  = ["generate_graph_data"; "get_stock_price"]
  /\ temperature (bedrockPayload [copied question]) = (7 # 10)%Q.
Proof.
  pose proof (service_is_called_with_the_fixed_payload
                (request_with [question] VNull) model_id
                (bedrockPayload [copied question]) conclude eq_refl)
    as (_ & _ & _ & _ & T & N & _).
  split; [exact N|exact T].
Defined.

Lemma pie_example_twice :
  exists tu' out,
    processToolResponse example_pie = Ok (tu', out)
    /\ processToolResponse (tool_use "toolu_08" "generate_graph_data" out)
       = Ok (tool_use "toolu_08" "generate_graph_data" out, out).
Proof.
  destruct (renormalizing_a_pie_keeps_the_chart example_pie
              eq_refl eq_refl ltac:(discriminate) eq_refl)
    as (tu' & out & RUN & AGAIN).
  exists tu', out. split; [exact RUN|].
  apply AGAIN; [|reflexivity].
  assert (E : processToolResponse example_pie = Ok (tu', out)) by exact RUN.
  cbv in E. injection E as _ <-.
  intros row [<-|[<-|[]]]; right; reflexivity.
Defined.
